(** * A file-backed key-value store: [key_value_data_store/functions.py]

    Shallow embedding of the storage engine ([is_valid], [DataStoreVO],
    [DataStore]) together with the parts of the Python runtime it calls:
    [json.dumps] / [json.loads] with their default options, [str.encode],
    [bytes.decode], [str.rstrip] and the [mmap] object.

    Scope of the embedding.
    - A Python [str] is a [string]: one [ascii] per character, so the code
      points are those below 256.  The text handled by the JSON codec is a
      [list ascii] (the characters of a [str]).
    - Python objects are the trees [pyval]: [None], [bool], [int], [str],
      [list], [tuple] and [dict] with [str] keys.  A tuple is the one value
      of the tree that JSON does not give back as it was: it is written as an
      array and read as a list ([listify]).  Floats and dicts with keys of
      another type than [str] are left out; so is a JSON text with a float
      (or with [NaN], [Infinity]) or with an escape above [\u00ff], which
      [Json.loads] does not read, and a JSON text that is not an object,
      which [_read_data] does not store ([NotAnObject]).
    - [time.time()] is an explicit argument: [now] is the value of
      [int(time.time() * 1000)] at the call.
    - [config] and [sys.getsizeof] are parameters.
    - The limits of the interpreter (recursion depth, the digits of an
      [int] converted to or from text) are left out.
    - The in-process lock is taken and released around every operation; the
      embedding is sequential. *)

From Stdlib Require Import ZArith NArith List Bool Lia Arith.
From Stdlib.Strings Require Import String Ascii Byte.
From Stdlib Require Import DecimalFacts DecimalPos DecimalN DecimalZ.
Import ListNotations.

Set Warnings "-register-all".

(* ================================================================== *)
(** * Python objects *)
(* ================================================================== *)

(** A [dict] keeps its insertion order, which [json.dumps] follows: it is an
    association list.  Python keeps the keys of a dict distinct ([wf_pyval]
    below). *)
Inductive pyval : Type :=
| PyNone
| PyBool (b : bool)
| PyInt (z : Z)
| PyStr (s : string)
| PyList (l : list pyval)
| PyTuple (l : list pyval)
| PyDict (d : list (string * pyval)).

Abbreviation pydict := (list (string * pyval)).

(** Induction principle that goes through the nested lists. *)
Fixpoint pyval_nested_ind (P : pyval -> Prop)
    (HNone : P PyNone)
    (HBool : forall b, P (PyBool b))
    (HInt : forall z, P (PyInt z))
    (HStr : forall s, P (PyStr s))
    (HList : forall l, Forall P l -> P (PyList l))
    (HTuple : forall l, Forall P l -> P (PyTuple l))
    (HDict : forall d, Forall (fun kv => P (snd kv)) d -> P (PyDict d))
    (v : pyval) {struct v} : P v :=
  match v with
  | PyNone => HNone
  | PyBool b => HBool b
  | PyInt z => HInt z
  | PyStr s => HStr s
  | PyList l =>
      HList l ((fix go (l : list pyval) : Forall P l :=
                  match l with
                  | [] => Forall_nil _
                  | x :: l' =>
                      Forall_cons x
                        (pyval_nested_ind P HNone HBool HInt HStr HList HTuple HDict x)
                        (go l')
                  end) l)
  | PyTuple l =>
      HTuple l ((fix go (l : list pyval) : Forall P l :=
                   match l with
                   | [] => Forall_nil _
                   | x :: l' =>
                       Forall_cons x
                         (pyval_nested_ind P HNone HBool HInt HStr HList HTuple HDict x)
                         (go l')
                   end) l)
  | PyDict d =>
      HDict d ((fix go (d : pydict) : Forall (fun kv => P (snd kv)) d :=
                  match d with
                  | [] => Forall_nil _
                  | kv :: d' =>
                      Forall_cons (P := fun kv => P (snd kv)) kv
                        (pyval_nested_ind P HNone HBool HInt HStr HList HTuple HDict (snd kv))
                        (go d')
                  end) d)
  end.

(** ** dict operations (insertion ordered) *)

Fixpoint dict_get (k : string) (d : pydict) : option pyval :=
  match d with
  | [] => None
  | (k', v) :: d' => if String.eqb k k' then Some v else dict_get k d'
  end.

Definition dict_mem (k : string) (d : pydict) : bool :=
  match dict_get k d with Some _ => true | None => false end.

(** [d[k] = v]: replaces in place, or appends a new key at the end. *)
Fixpoint dict_set (k : string) (v : pyval) (d : pydict) : pydict :=
  match d with
  | [] => [(k, v)]
  | (k', v') :: d' =>
      if String.eqb k k' then (k', v) :: d' else (k', v') :: dict_set k v d'
  end.

(** [del d[k]] and [d.pop(k)] on a present key. *)
Fixpoint dict_del (k : string) (d : pydict) : pydict :=
  match d with
  | [] => []
  | (k', v') :: d' =>
      if String.eqb k k' then dict_del k d' else (k', v') :: dict_del k d'
  end.

(** [dict(pairs)]: a later pair overwrites an earlier one with the same key. *)
Definition dict_of_pairs (ps : pydict) : pydict :=
  fold_left (fun d kv => dict_set (fst kv) (snd kv) d) ps [].

(** The keys of every dict inside a value are distinct. *)
Fixpoint wf_pyval (v : pyval) : Prop :=
  match v with
  | PyList l | PyTuple l =>
      (fix all (l : list pyval) : Prop :=
         match l with
         | [] => True
         | x :: l' => wf_pyval x /\ all l'
         end) l
  | PyDict d => NoDup (map fst d) /\
                (fix all (d : pydict) : Prop :=
                   match d with
                   | [] => True
                   | kv :: d' => wf_pyval (snd kv) /\ all d'
                   end) d
  | _ => True
  end.

(* ================================================================== *)
(** * The JSON codec of the Python standard library *)
(* ================================================================== *)

Module Json.

(** The characters of a [str]. *)
Abbreviation text := (list ascii).

Definition chars (s : string) : text := list_ascii_of_string s.

Definition code (c : ascii) : N := N_of_ascii c.

Definition dquote : ascii := "034"%char.
Definition backslash : ascii := "092"%char.

(** ** [json.dumps] *)

Definition hexdigit (n : N) : ascii :=
  if (n <? 10)%N then ascii_of_N (48 + n) else ascii_of_N (87 + n).

(** [ESCAPE_ASCII] with [ESCAPE_DCT]: the quote, the backslash and every
    character outside [' '..'~'] are escaped. *)
Definition escape_char (c : ascii) : text :=
  let n := code c in
  if (n =? 34)%N then [backslash; dquote]
  else if (n =? 92)%N then [backslash; backslash]
  else if (n =? 10)%N then [backslash; "n"%char]
  else if (n =? 13)%N then [backslash; "r"%char]
  else if (n =? 9)%N then [backslash; "t"%char]
  else if (n =? 12)%N then [backslash; "f"%char]
  else if (n =? 8)%N then [backslash; "b"%char]
  else if ((32 <=? n) && (n <=? 126))%N then [c]
  else [backslash; "u"%char; "0"%char; "0"%char;
        hexdigit (n / 16); hexdigit (n mod 16)].

(** [encode_basestring_ascii] *)
Definition encode_str (s : string) : text :=
  dquote :: flat_map escape_char (list_ascii_of_string s) ++ [dquote].

Fixpoint digits (u : Decimal.uint) : text :=
  match u with
  | Decimal.Nil => []
  | Decimal.D0 u => "0"%char :: digits u
  | Decimal.D1 u => "1"%char :: digits u
  | Decimal.D2 u => "2"%char :: digits u
  | Decimal.D3 u => "3"%char :: digits u
  | Decimal.D4 u => "4"%char :: digits u
  | Decimal.D5 u => "5"%char :: digits u
  | Decimal.D6 u => "6"%char :: digits u
  | Decimal.D7 u => "7"%char :: digits u
  | Decimal.D8 u => "8"%char :: digits u
  | Decimal.D9 u => "9"%char :: digits u
  end.

(** [int.__repr__] *)
Definition encode_int (z : Z) : text :=
  match z with
  | Z0 => ["0"%char]
  | Zpos p => digits (Pos.to_uint p)
  | Zneg p => "-"%char :: digits (Pos.to_uint p)
  end.

(** [', '.join] of the default item separator. *)
Fixpoint join (parts : list text) : text :=
  match parts with
  | [] => []
  | [p] => p
  | p :: ps => p ++ chars ", " ++ join ps
  end.

(** [json.dumps(v)] with the default arguments: [ensure_ascii=True],
    separators [(', ', ': ')], keys in the order of the dict; a tuple is
    written as a list is. *)
Fixpoint dumps (v : pyval) : text :=
  match v with
  | PyNone => chars "null"
  | PyBool true => chars "true"
  | PyBool false => chars "false"
  | PyInt z => encode_int z
  | PyStr s => encode_str s
  | PyList l | PyTuple l => "["%char :: join (map dumps l) ++ ["]"%char]
  | PyDict d =>
      "{"%char ::
      join (map (fun kv => encode_str (fst kv) ++ chars ": " ++ dumps (snd kv)) d)
      ++ ["}"%char]
  end.

(** ** [json.loads] *)

(** [WHITESPACE]: space, tab, line feed, carriage return. *)
Definition is_ws (c : ascii) : bool :=
  let n := code c in ((n =? 32) || (n =? 9) || (n =? 10) || (n =? 13))%N.

Fixpoint skip_ws (s : text) : text :=
  match s with
  | c :: r => if is_ws c then skip_ws r else s
  | [] => []
  end.

Definition hexval (c : ascii) : option N :=
  let n := code c in
  if ((48 <=? n) && (n <=? 57))%N then Some (n - 48)%N
  else if ((97 <=? n) && (n <=? 102))%N then Some (n - 87)%N
  else if ((65 <=? n) && (n <=? 70))%N then Some (n - 55)%N
  else None.

(** The [BACKSLASH] table of the decoder. *)
Definition unescape (c : ascii) : option ascii :=
  let n := code c in
  if (n =? 34)%N then Some dquote
  else if (n =? 92)%N then Some backslash
  else if (n =? 47)%N then Some "/"%char
  else if (n =? 98)%N then Some (ascii_of_N 8)
  else if (n =? 102)%N then Some (ascii_of_N 12)
  else if (n =? 110)%N then Some (ascii_of_N 10)
  else if (n =? 114)%N then Some (ascii_of_N 13)
  else if (n =? 116)%N then Some (ascii_of_N 9)
  else None.

Definition cons_str (c : ascii) (r : option (string * text)) : option (string * text) :=
  match r with
  | Some (s, rest) => Some (String c s, rest)
  | None => None
  end.

(** [py_scanstring] in strict mode, called after the opening quote: returns
    the decoded string and the text after the closing quote.  An escape
    [\uXXXX] of a code point above 255 has no image here. *)
Fixpoint scanstring (s : text) : option (string * text) :=
  match s with
  | [] => None
  | c :: r =>
      if (code c =? 34)%N then Some (EmptyString, r)
      else if (code c =? 92)%N then
        match r with
        | [] => None
        | e :: r1 =>
            if (code e =? 117)%N then
              match r1 with
              | h1 :: h2 :: h3 :: h4 :: r2 =>
                  match hexval h1, hexval h2, hexval h3, hexval h4 with
                  | Some a, Some b, Some x, Some y =>
                      let n := (((a * 16 + b) * 16 + x) * 16 + y)%N in
                      if (n <? 256)%N then cons_str (ascii_of_N n) (scanstring r2)
                      else None
                  | _, _, _, _ => None
                  end
              | _ => None
              end
            else
              match unescape e with
              | Some c' => cons_str c' (scanstring r1)
              | None => None
              end
        end
      else if (code c <? 32)%N then None
      else cons_str c (scanstring r)
  end.

Definition digit_of (c : ascii) : option (Decimal.uint -> Decimal.uint) :=
  let n := code c in
  if (n =? 48)%N then Some Decimal.D0
  else if (n =? 49)%N then Some Decimal.D1
  else if (n =? 50)%N then Some Decimal.D2
  else if (n =? 51)%N then Some Decimal.D3
  else if (n =? 52)%N then Some Decimal.D4
  else if (n =? 53)%N then Some Decimal.D5
  else if (n =? 54)%N then Some Decimal.D6
  else if (n =? 55)%N then Some Decimal.D7
  else if (n =? 56)%N then Some Decimal.D8
  else if (n =? 57)%N then Some Decimal.D9
  else None.

(** The longest run of decimal digits at the head of the text. *)
Fixpoint scan_digits (s : text) : Decimal.uint * text :=
  match s with
  | [] => (Decimal.Nil, [])
  | c :: r =>
      match digit_of c with
      | Some d => let (u, r') := scan_digits r in (d u, r')
      | None => (Decimal.Nil, s)
      end
  end.

(** The integer part of [NUMBER_RE]: [0|[1-9][0-9]*]. *)
Definition scan_intpart (s : text) : option (Decimal.uint * text) :=
  match s with
  | [] => None
  | c :: r =>
      if (code c =? 48)%N then Some (Decimal.D0 Decimal.Nil, r)
      else match digit_of c with
           | Some _ => Some (scan_digits s)
           | None => None
           end
  end.

(** What follows the integer part starts a fraction or an exponent. *)
Definition float_tail (s : text) : bool :=
  match s with
  | c :: _ => let n := code c in ((n =? 46) || (n =? 101) || (n =? 69))%N
  | [] => false
  end.

(** A number: an integer is returned; where a fraction or an exponent
    follows, Python reads a float (or rejects the text): no image here. *)
Definition scan_number (s : text) : option (Z * text) :=
  let '(neg, s1) :=
    match s with
    | c :: r => if (code c =? 45)%N then (true, r) else (false, s)
    | [] => (false, s)
    end in
  match scan_intpart s1 with
  | Some (u, r) =>
      if float_tail r then None
      else Some (if neg then Z.opp (Z.of_uint u) else Z.of_uint u, r)
  | None => None
  end.

(** [s] starts with the characters of [lit]; returns what follows. *)
Fixpoint strip_prefix (lit s : text) : option text :=
  match lit, s with
  | [], _ => Some s
  | a :: lit', b :: s' => if Ascii.eqb a b then strip_prefix lit' s' else None
  | _ :: _, [] => None
  end.

(** [scan_once] with [JSONArray] and [JSONObject]; [fuel] bounds the number
    of nested calls. *)
Fixpoint scan_once (fuel : nat) (s : text) : option (pyval * text) :=
  match fuel with
  | O => None
  | S fuel =>
      match s with
      | [] => None
      | c :: r =>
          if (code c =? 34)%N then
            match scanstring r with
            | Some (str, r1) => Some (PyStr str, r1)
            | None => None
            end
          else if (code c =? 123)%N then
            match skip_ws r with
            | [] => None
            | c1 :: r1 =>
                if (code c1 =? 125)%N then Some (PyDict [], r1)
                else match scan_members fuel (c1 :: r1) with
                     | Some (ps, r2) => Some (PyDict (dict_of_pairs ps), r2)
                     | None => None
                     end
            end
          else if (code c =? 91)%N then
            match skip_ws r with
            | [] => None
            | c1 :: r1 =>
                if (code c1 =? 93)%N then Some (PyList [], r1)
                else match scan_elems fuel (c1 :: r1) with
                     | Some (vs, r2) => Some (PyList vs, r2)
                     | None => None
                     end
            end
          else
            match strip_prefix (chars "null") s with
            | Some r1 => Some (PyNone, r1)
            | None =>
            match strip_prefix (chars "true") s with
            | Some r1 => Some (PyBool true, r1)
            | None =>
            match strip_prefix (chars "false") s with
            | Some r1 => Some (PyBool false, r1)
            | None =>
            match scan_number s with
            | Some (z, r1) => Some (PyInt z, r1)
            | None => None
            end end end end
      end
  end

with scan_elems (fuel : nat) (s : text) : option (list pyval * text) :=
  match fuel with
  | O => None
  | S fuel =>
      match scan_once fuel s with
      | None => None
      | Some (v, r) =>
          match skip_ws r with
          | [] => None
          | c :: r1 =>
              if (code c =? 93)%N then Some ([v], r1)
              else if (code c =? 44)%N then
                match scan_elems fuel (skip_ws r1) with
                | Some (vs, r2) => Some (v :: vs, r2)
                | None => None
                end
              else None
          end
      end
  end

with scan_members (fuel : nat) (s : text) : option (pydict * text) :=
  match fuel with
  | O => None
  | S fuel =>
      match s with
      | [] => None
      | q :: r =>
          if negb (code q =? 34)%N then None
          else
            match scanstring r with
            | None => None
            | Some (k, r1) =>
                match skip_ws r1 with
                | [] => None
                | c :: r2 =>
                    if negb (code c =? 58)%N then None
                    else
                      match scan_once fuel (skip_ws r2) with
                      | None => None
                      | Some (v, r3) =>
                          match skip_ws r3 with
                          | [] => None
                          | c' :: r4 =>
                              if (code c' =? 125)%N then Some ([(k, v)], r4)
                              else if (code c' =? 44)%N then
                                match scan_members fuel (skip_ws r4) with
                                | Some (ps, r5) => Some ((k, v) :: ps, r5)
                                | None => None
                                end
                              else None
                          end
                      end
                end
            end
      end
  end.

(** [json.loads(s)]: leading whitespace, one value, trailing whitespace, end
    of text.  [None] is [JSONDecodeError] (or a text with a float or a
    character above 255, which has no image here). *)
Definition loads (s : text) : option pyval :=
  match scan_once (S (List.length s)) (skip_ws s) with
  | Some (v, r) =>
      match skip_ws r with
      | [] => Some v
      | _ :: _ => None
      end
  | None => None
  end.

End Json.

(* ================================================================== *)
(** * Exceptions *)
(* ================================================================== *)

(** The exceptions of the engine carry what their message interpolates. *)
Inductive exn : Type :=
| KeyAlreadyPresent (key : pyval)
    (** [ValueError(f"Key '{key}' already present.")] *)
| KeyNotStr (val : pyval)
    (** [ValueError(f"Key [{val}] must be of type str.")] *)
| ValueNotDict (val : pyval)
    (** [ValueError(f"Value [{val}] must be of type dict.")] *)
| TtlNotInteger (ttl : pyval)
    (** [ValueError(f"Time-to-live {ttl} must be an integer value.")] *)
| SizeConfigNotMet (max_key_len max_value_size : Z)
    (** [ValueError("Either provided key(allowed_size:{MAX_KEY_LEN} characters)
        or value(allowed_size:{MAX_VALUE_SIZE} bytes) doesn't meet the size
        config.")] *)
| KeyNotInDatastore (key : pyval)
    (** [ValueError(f"Key [{key}] not in datastore.")] *)
| TtlExpired (key : pyval)
    (** [ValueError(f"Key [{key}] Time-to-live expired.")] *)
| MmapDataOutOfRange
    (** [ValueError("data out of range")] of [mmap.write] *)
| MmapSliceSize
    (** [IndexError("mmap slice assignment is wrong size")] *)
| MmapEmptyFile
    (** [ValueError("cannot mmap an empty file")] *)
| OSError
    (** [OSError] (invalid argument) of [mmap.resize] to a size of zero *)
| PyTypeError
    (** [TypeError] of the interpreter: unhashable key, bad operand, bad
        argument count *)
| UnicodeError
    (** [UnicodeEncodeError] / [UnicodeDecodeError] of the ascii codec *)
| JSONDecodeError
| NotAnObject
    (** the stored JSON text is not an object: the store would hold a value
        that is not a dict, which has no image here *).

Inductive result (A : Type) : Type :=
| Ok (a : A)
| Raise (e : exn).

Arguments Ok {A} a.
Arguments Raise {A} e.

(* ================================================================== *)
(** * The ascii codec and [rstrip] *)
(* ================================================================== *)

Definition NUL : byte := x00.

Definition is_ascii (c : ascii) : bool := (Json.code c <? 128)%N.

(** [s.encode('ascii')] *)
Definition encode_ascii (s : Json.text) : result (list byte) :=
  if forallb is_ascii s
  then Ok (map byte_of_ascii s)
  else Raise UnicodeError.

(** [b.decode('ascii')] *)
Definition decode_ascii (b : list byte) : result Json.text :=
  if forallb (fun x => (Byte.to_N x <? 128)%N) b
  then Ok (map ascii_of_byte b)
  else Raise UnicodeError.

(** [s.rstrip('\0')] *)
Definition rstrip_nul (s : Json.text) : Json.text :=
  fold_right
    (fun c acc =>
       match acc with
       | [] => if (Json.code c =? 0)%N then [] else [c]
       | _ :: _ => c :: acc
       end) [] s.

(* ================================================================== *)
(** * The [mmap] object *)
(* ================================================================== *)

Module Mmap.

(** The mapped bytes and the position of the file-like cursor. *)
Record t : Type := { buf : list byte; pos : nat }.

(** [mmap.mmap(fd, 0, access=ACCESS_WRITE)] over the content of the file. *)
Definition mmap (file : list byte) : result t :=
  match file with
  | [] => Raise MmapEmptyFile
  | _ :: _ => Ok {| buf := file; pos := 0 |}
  end.

(** [m.resize(n)]: the file is truncated or extended with null bytes; a
    mapping cannot be resized to no byte at all. *)
Definition resize (n : nat) (m : t) : result t :=
  match n with
  | O => Raise OSError
  | S _ =>
      Ok {| buf := firstn n (buf m) ++ repeat NUL (n - List.length (buf m));
            pos := pos m |}
  end.

(** [m.size()]: the size of the file, which is that of the mapping. *)
Definition size (m : t) : nat := List.length (buf m).

Definition tell (m : t) : nat := pos m.

Definition seek (p : nat) (m : t) : t := {| buf := buf m; pos := p |}.

(** [m.write(b)]: all of [b] at the cursor, or nothing when it does not fit. *)
Definition write (b : list byte) (m : t) : result t :=
  if pos m + List.length b <=? List.length (buf m) then
    Ok {| buf := firstn (pos m) (buf m) ++ b ++ skipn (pos m + List.length b) (buf m);
          pos := pos m + List.length b |}
  else Raise MmapDataOutOfRange.

(** [m[p:] = b] *)
Definition set_from (p : nat) (b : list byte) (m : t) : result t :=
  if List.length b =? List.length (buf m) - p then
    Ok {| buf := firstn p (buf m) ++ b; pos := pos m |}
  else Raise MmapSliceSize.

(** [m[:]] *)
Definition read_all (m : t) : list byte := buf m.

End Mmap.

(* ================================================================== *)
(** * [config] *)
(* ================================================================== *)

(** The constants of the [config] module that the engine reads. *)
Record config : Type := {
  MAX_KEY_LEN : Z;
  MAX_VALUE_SIZE : Z;
  MAX_LOCAL_STORAGE_SIZE : nat
}.

(* ================================================================== *)
(** * Built-ins *)
(* ================================================================== *)

(** The integer behind an operand of [-], [*] and [>]: [bool] is a subclass
    of [int]. *)
Definition as_int (v : pyval) : option Z :=
  match v with
  | PyInt z => Some z
  | PyBool true => Some 1%Z
  | PyBool false => Some 0%Z
  | _ => None
  end.

(** The blanks that [int] strips at both ends of a [str]: the ASCII
    whitespace (tab to carriage return, and the space), and the two
    whitespace characters between 128 and 255, which [int] first turns into
    spaces.  The separators 28 to 31 are not stripped. *)
Definition is_space (c : ascii) : bool :=
  let n := Json.code c in
  (((9 <=? n) && (n <=? 13)) || (n =? 32) || (n =? 133) || (n =? 160))%N.

Fixpoint lstrip_space (s : Json.text) : Json.text :=
  match s with
  | c :: r => if is_space c then lstrip_space r else s
  | [] => []
  end.

Definition strip_space (s : Json.text) : Json.text :=
  rev (lstrip_space (rev (lstrip_space s))).

Definition digit_value (c : ascii) : option Z :=
  let n := Json.code c in
  if ((48 <=? n) && (n <=? 57))%N then Some (Z.of_N (n - 48)) else None.

(** Decimal digits with single underscores between them. *)
Fixpoint int_body (s : Json.text) (acc : Z) (after_digit : bool) : option Z :=
  match s with
  | [] => if after_digit then Some acc else None
  | c :: r =>
      match digit_value c with
      | Some d => int_body r (acc * 10 + d)%Z true
      | None =>
          if ((Json.code c =? 95)%N && after_digit)%bool
          then int_body r acc false
          else None
      end
  end.

(** [int(s)] of a [str] in base 10. *)
Definition int_of_str (s : string) : option Z :=
  match strip_space (list_ascii_of_string s) with
  | [] => None
  | c :: r =>
      if (Json.code c =? 45)%N then option_map Z.opp (int_body r 0%Z false)
      else if (Json.code c =? 43)%N then int_body r 0%Z false
      else int_body (c :: r) 0%Z false
  end.

(** [int(v)]; [None] when Python raises. *)
Definition py_int (v : pyval) : option Z :=
  match v with
  | PyInt z => Some z
  | PyBool b => as_int (PyBool b)
  | PyStr s => int_of_str s
  | _ => None
  end.

(** The positional arguments of a call [f( *v )]. *)
Definition unpack (v : pyval) : result (list pyval) :=
  match v with
  | PyList l | PyTuple l => Ok l
  | PyStr s =>
      Ok (map (fun c => PyStr (String c EmptyString)) (list_ascii_of_string s))
  | PyDict d => Ok (map (fun kv => PyStr (fst kv)) d)
  | _ => Raise PyTypeError
  end.

(** [hash(v)] returns: a list or a dict is unhashable, and so is a tuple
    that holds one. *)
Fixpoint hashable (v : pyval) : bool :=
  match v with
  | PyList _ | PyDict _ => false
  | PyTuple l => forallb hashable l
  | _ => true
  end.

(** [key in d] for a dict with [str] keys. *)
Definition contains (key : pyval) (d : pydict) : result bool :=
  match key with
  | PyStr k => Ok (dict_mem k d)
  | _ => if hashable key then Ok false else Raise PyTypeError
  end.

(* ================================================================== *)
(** * [DataStoreVO] *)
(* ================================================================== *)

Record DataStoreVO : Type := {
  value : pyval;
  ttl : pyval;
  created_at : pyval
}.

(** [DataStoreVO.__init__(self, value, created_at, ttl, *args, **kwargs)] *)
Definition DataStoreVO_init (args : list pyval) : result DataStoreVO :=
  match args with
  | v :: c :: t :: _ => Ok {| value := v; ttl := t; created_at := c |}
  | _ => Raise PyTypeError
  end.

(** [DataStoreVO.is_expired], at [curr_ts = now]. *)
Definition is_expired (self : DataStoreVO) (now : Z) : result bool :=
  match ttl self with
  | PyNone => Ok false
  | t =>
      let curr_ts := now in
      match as_int (created_at self), as_int t with
      | Some c, Some t' => Ok (curr_ts - c >? t' * 1000)%Z
      | _, _ => Raise PyTypeError
      end
  end.

(* ================================================================== *)
(** * [DataStore] *)
(* ================================================================== *)

(** The two private attributes the operations use. *)
Record DataStore : Type := {
  data : pydict;
  mmap : Mmap.t
}.

(** Operations run on a store and end with a value or an exception; the
    store is kept as it is at the [raise]. *)
Definition M (A : Type) : Type := DataStore -> result A * DataStore.

Definition ret {A} (a : A) : M A := fun self => (Ok a, self).

Definition raise {A} (e : exn) : M A := fun self => (Raise e, self).

Definition bind {A B} (m : M A) (k : A -> M B) : M B :=
  fun self =>
    match m self with
    | (Ok a, self') => k a self'
    | (Raise e, self') => (Raise e, self')
    end.

Definition lift {A} (r : result A) : M A := fun self => (r, self).

Definition get_data : M pydict := fun self => (Ok (data self), self).

Definition set_data (d : pydict) : M unit :=
  fun self => (Ok tt, {| data := d; mmap := mmap self |}).

Definition get_mmap : M Mmap.t := fun self => (Ok (mmap self), self).

Definition set_mmap (m : Mmap.t) : M unit :=
  fun self => (Ok tt, {| data := data self; mmap := m |}).

Declare Scope store_scope.
Delimit Scope store_scope with store.
Notation "x <- m ;; k" := (bind m (fun x => k))
  (at level 61, m at next level, right associativity) : store_scope.
Notation "m ;;; k" := (bind m (fun _ => k))
  (at level 61, right associativity) : store_scope.

Local Open Scope store_scope.

Inductive val_type : Type :=
| val_type_key      (** ["key"] *)
| val_type_value    (** ["value"] *).

Section Engine.

Variable cfg : config.

(** [sys.getsizeof] *)
Variable getsizeof : pyval -> Z.

Definition is_valid (val : pyval) (vt : val_type) : result bool :=
  match vt with
  | val_type_key =>
      match val with
      | PyStr s => Ok (Z.of_nat (String.length s) <=? MAX_KEY_LEN cfg)%Z
      | _ => Raise (KeyNotStr val)
      end
  | val_type_value =>
      match val with
      | PyDict _ => Ok (getsizeof val <=? MAX_VALUE_SIZE cfg)%Z
      | _ => Raise (ValueNotDict val)
      end
  end.

Definition _get_mmaped_fd (file : list byte) : result Mmap.t :=
  match Mmap.mmap file with
  | Ok mmaped_fd => Mmap.resize (MAX_LOCAL_STORAGE_SIZE cfg) mmaped_fd
  | Raise e => Raise e
  end.

Definition _read_data (m : Mmap.t) : result pydict :=
  match decode_ascii (Mmap.read_all m) with
  | Raise e => Raise e
  | Ok decoded =>
      let raw_data := rstrip_nul decoded in
      match Json.loads raw_data with
      | Some (PyDict d) => Ok d
      | Some _ => Raise NotAnObject
      | None => Raise JSONDecodeError
      end
  end.

(** [DataStore.__init__] on the content of the file behind the descriptor. *)
Definition DataStore_init (file : list byte) : result DataStore :=
  match _get_mmaped_fd file with
  | Raise e => Raise e
  | Ok m =>
      match _read_data m with
      | Raise e => Raise e
      | Ok d => Ok {| data := d; mmap := m |}
      end
  end.

Definition flush : M unit :=
  m <- get_mmap ;;
  set_mmap (Mmap.seek 0 m) ;;;
  d <- get_data ;;
  data_string <- lift (encode_ascii (Json.dumps (PyDict d))) ;;
  m <- get_mmap ;;
  m <- lift (Mmap.write data_string m) ;;
  set_mmap m ;;;
  let empty_space_bytes := Mmap.size m - Mmap.tell m in
  m <- lift (Mmap.set_from (Mmap.tell m) (repeat NUL empty_space_bytes) m) ;;
  set_mmap m.

(** [self.__data[key] = v].  [create] comes here after [is_valid], which has
    raised for a key that is not a [str]: the other cases are not reached. *)
Definition setitem (key : pyval) (v : pyval) : M unit :=
  match key with
  | PyStr k => d <- get_data ;; set_data (dict_set k v d)
  | _ => raise PyTypeError
  end.

(** [del self.__data[key]] and [self.__data.pop(key)].  [delete] and [get]
    come here with a key that is in the dict, hence a [str]: the other cases
    are not reached. *)
Definition delitem (key : pyval) : M unit :=
  match key with
  | PyStr k => d <- get_data ;; set_data (dict_del k d)
  | _ => raise PyTypeError
  end.

(** [self.__data.get(key)]: [None] for a key that is not in the dict. *)
Definition getitem (key : pyval) : M pyval :=
  match key with
  | PyStr k =>
      d <- get_data ;;
      match dict_get k d with
      | Some v => ret v
      | None => ret PyNone
      end
  | _ => if hashable key then ret PyNone else raise PyTypeError
  end.

(** The block [if ttl is not None: try: ttl = int(ttl) except: raise ...]
    of [create]: the value of [ttl] after it. *)
Definition coerce_ttl (ttl : pyval) : result pyval :=
  match ttl with
  | PyNone => Ok PyNone
  | _ => match py_int ttl with
         | Some t => Ok (PyInt t)
         | None => Raise (TtlNotInteger ttl)
         end
  end.

Definition create (key value ttl : pyval) (now : Z) : M unit :=
  d <- get_data ;;
  present <- lift (contains key d) ;;
  if present then raise (KeyAlreadyPresent key)
  else
    key_ok <- lift (is_valid key val_type_key) ;;
    valid <- (if key_ok then lift (is_valid value val_type_value)
              else ret false) ;;
    if valid then
      ttl <- lift (coerce_ttl ttl) ;;
      let value_arr := PyList [value; PyInt now; ttl] in
      setitem key value_arr ;;;
      flush
    else raise (SizeConfigNotMet (MAX_KEY_LEN cfg) (MAX_VALUE_SIZE cfg)).

Definition delete (key : pyval) : M unit :=
  d <- get_data ;;
  present <- lift (contains key d) ;;
  if negb present then ret tt
  else delitem key ;;; flush.

Definition get (key : pyval) (now : Z) : M pyval :=
  d <- get_data ;;
  present <- lift (contains key d) ;;
  if negb present then raise (KeyNotInDatastore key)
  else
    entry <- getitem key ;;
    args <- lift (unpack entry) ;;
    vo <- lift (DataStoreVO_init args) ;;
    expired <- lift (is_expired vo now) ;;
    if expired then
      delitem key ;;;
      flush ;;;
      raise (TtlExpired key)
    else ret (value vo).

Definition delete_all : M unit :=
  set_data [] ;;;
  flush.

(** [DataStore.__getitem__] *)
Definition getitem_ (item : pyval) (now : Z) : M pyval := get item now.

(** [get_instance] once the file is opened and locked: an empty file first
    receives the two bytes of an empty JSON object. *)
Definition get_instance (file : list byte) : result DataStore :=
  let file :=
    match file with
    | [] => map byte_of_ascii (Json.chars "{}")
    | _ :: _ => file
    end in
  DataStore_init file.

End Engine.

(* ================================================================== *)
(** * Notions used by the statements *)
(* ================================================================== *)

(** What JSON gives back for a value: [json.dumps] writes a tuple as an
    array, which [json.loads] reads as a list. *)
Fixpoint listify (v : pyval) : pyval :=
  match v with
  | PyList l | PyTuple l => PyList (map listify l)
  | PyDict d => PyDict (map (fun kv => (fst kv, listify (snd kv))) d)
  | _ => v
  end.

Definition listify_dict (d : pydict) : pydict :=
  map (fun kv => (fst kv, listify (snd kv))) d.

(** A value made of what JSON has: [None], [bool], [int], [str], [list] and
    [dict] (with [str] keys), and no tuple at any depth. *)
Fixpoint json_native (v : pyval) : bool :=
  match v with
  | PyList l => forallb json_native l
  | PyTuple _ => false
  | PyDict d => forallb (fun kv => json_native (snd kv)) d
  | _ => true
  end.

(** Fuel that [Json.scan_once] needs to read back a value. *)
Fixpoint weight (v : pyval) : nat :=
  match v with
  | PyList l | PyTuple l =>
      S ((fix sum (l : list pyval) : nat :=
            match l with
            | [] => 0
            | x :: l' => S (weight x + sum l')
            end) l)
  | PyDict d =>
      S ((fix sum (d : pydict) : nat :=
            match d with
            | [] => 0
            | kv :: d' => S (weight (snd kv) + sum d')
            end) d)
  | _ => 1
  end.

(** A character that can start a value written by [Json.dumps]: it is not
    whitespace and closes neither a list nor a dict. *)
Definition value_start (c : ascii) : bool :=
  (negb (Json.is_ws c) && negb (Json.code c =? 93) && negb (Json.code c =? 125))%N.

Definition starts_value (s : Json.text) : bool :=
  match s with
  | c :: _ => value_start c
  | [] => false
  end.

(** The first character of a number: a minus sign or a digit. *)
Definition number_start (c : ascii) : bool :=
  ((Json.code c =? 45) || ((48 <=? Json.code c) && (Json.code c <=? 57)))%N.

(** What may follow a value in a JSON text written by [Json.dumps]: the end,
    a comma, or a closing bracket or brace. *)
Definition delimited (rest : Json.text) : Prop :=
  match rest with
  | [] => True
  | c :: _ => Json.code c = 44%N \/ Json.code c = 93%N \/ Json.code c = 125%N
  end.

(** The text of a dict member: its key, a colon and a space, its value. *)
Definition member (kv : string * pyval) : Json.text :=
  Json.encode_str (fst kv) ++ Json.chars ": " ++ Json.dumps (snd kv).

(** [v] is read back from the head of any text that continues with a
    delimiter, with any fuel from [weight v] on; its tuples come back as
    lists. *)
Definition reads_back (v : pyval) : Prop :=
  forall fuel rest,
    weight v <= fuel -> delimited rest -> wf_pyval v ->
    Json.scan_once fuel (Json.dumps v ++ rest) = Some (listify v, rest).

(** The bytes [flush] writes for a map: its JSON text, one byte per
    character. *)
Definition snapshot (d : pydict) : list byte :=
  map byte_of_ascii (Json.dumps (PyDict d)).

(** The region mirrors the map: it has the configured capacity and holds the
    snapshot of the map from offset 0, followed by null bytes only. *)
Definition in_sync (cfg : config) (self : DataStore) : Prop :=
  let region := Mmap.buf (mmap self) in
  List.length region = MAX_LOCAL_STORAGE_SIZE cfg /\
  List.length (snapshot (data self)) <= List.length region /\
  region = snapshot (data self)
           ++ repeat NUL (List.length region - List.length (snapshot (data self))).

(** What holds of every store that [DataStore_init] has built, whatever the
    operations run on it since: the dicts of the map have distinct keys, and
    the region has the configured capacity. *)
Definition well_shaped (cfg : config) (self : DataStore) : Prop :=
  wf_pyval (PyDict (data self))
  /\ Mmap.size (mmap self) = MAX_LOCAL_STORAGE_SIZE cfg.

(** The record that [create] stores for a value. *)
Definition record (v : pyval) (created : Z) (t : pyval) : pyval :=
  PyList [v; PyInt created; t].

(** The store with another map and the same region. *)
Definition with_data (d : pydict) (self : DataStore) : DataStore :=
  {| data := d; mmap := mmap self |}.

(** ** A small configuration to run the engine on

    [config] is not part of the sources.  The examples take keys of at most
    32 characters, values of at most 16384 bytes and a region of 64 bytes, and
    for [sys.getsizeof] a shallow size: a base and a cost per entry of a
    dict, whatever the entries hold. *)

Definition example_config : config :=
  {| MAX_KEY_LEN := 32; MAX_VALUE_SIZE := 16384; MAX_LOCAL_STORAGE_SIZE := 64 |}.

Definition example_getsizeof (v : pyval) : Z :=
  match v with
  | PyDict d => (64 + 104 * Z.of_nat (List.length d))%Z
  | _ => 56%Z
  end.

(** A valid value (a dict with one entry) whose text is longer than the
    region. *)
Definition example_big_value : pyval :=
  PyDict [("x"%string,
           PyStr "0123456789abcdef0123456789abcdef0123456789abcdef0123456789abcdef")].

(** The store that [get_instance] returns on a new file. *)
Definition example_store : DataStore :=
  {| data := [];
     mmap := {| Mmap.buf := map byte_of_ascii (Json.chars "{}") ++ repeat NUL 62;
                Mmap.pos := 0 |} |}.

(** The store after [create("a", {"x": 1})] at time 1000. *)
Definition example_store_a : DataStore :=
  snd (create example_config example_getsizeof (PyStr "a")
         (PyDict [("x"%string, PyInt 1)]) PyNone 1000 example_store).

(** The store after [create("b", {"y": 1}, ttl=1)] at time 1000. *)
Definition example_store_b : DataStore :=
  snd (create example_config example_getsizeof (PyStr "b")
         (PyDict [("y"%string, PyInt 1)]) (PyInt 1) 1000 example_store).

(** The store after [create("a", {"x": 1})] at time 1000 and
    [create("b", {}, ttl=5)] at time 2000. *)
Definition example_store_ab : DataStore :=
  snd (create example_config example_getsizeof (PyStr "b") (PyDict [])
         (PyInt 5) 2000 example_store_a).

(** The store after [create("b", {"y": 1}, ttl=1)] at time 1000 and
    [create("a", v)] at time 1500 for the value [v = example_big_value],
    whose write to the region fails: the map holds both records, the region
    still holds the first one only. *)
Definition example_store_b_overflowed : DataStore :=
  snd (create example_config example_getsizeof (PyStr "a") example_big_value
         PyNone 1500 example_store_b).

(** A valid value (a dict) that holds a tuple. *)
Definition example_tuple_value : pyval :=
  PyDict [("x"%string, PyTuple [PyInt 1; PyInt 2])].

(** The store after [create("t", {"x": (1, 2)})] at time 1000. *)
Definition example_store_t : DataStore :=
  snd (create example_config example_getsizeof (PyStr "t") example_tuple_value
         PyNone 1000 example_store).

(** A record as [create] writes it: a list of the value, an [int] creation
    time and a ttl that is [None] or an [int]. *)
Definition is_record (entry : pyval) : bool :=
  match entry with
  | PyList [_; PyInt _; PyNone] => true
  | PyList [_; PyInt _; PyInt _] => true
  | _ => false
  end.

(** Every key of the map holds such a record. *)
Definition all_records (d : pydict) : bool :=
  forallb (fun kv => is_record (snd kv)) d.

(** Keys of 32 and of 33 characters. *)
Definition key_of_32 : string := "0123456789abcdef0123456789abcdef".
Definition key_of_33 : string := "0123456789abcdef0123456789abcdefg".

(** Destructs what the parser looks at in the hypothesis [H], case by case. *)
Ltac scan_cases H :=
  repeat match type of H with
         | context [match ?x with _ => _ end] =>
             destruct x eqn:?; try discriminate H
         end.

(** The operation raised before the write to the region and left the store
    as it was. *)
Ltac still_in_sync :=
  cbn [fst snd]; split; [discriminate | assumption].

(* ================================================================== *)
(** * The JSON codec reads back what it writes *)
(* ================================================================== *)

Section JsonRoundTrip.

Import Json.

Lemma scanstring_escape_char (c : ascii) (t : text) :
  scanstring (escape_char c ++ t) = cons_str c (scanstring t).
Proof.
  destruct c as [[] [] [] [] [] [] [] []]; reflexivity.
Qed.

Lemma scanstring_escaped (cs : list ascii) (rest : text) :
  scanstring (flat_map escape_char cs ++ dquote :: rest)
  = Some (string_of_list_ascii cs, rest).
Proof.
  induction cs as [|c cs IH]; simpl.
  - reflexivity.
  - rewrite <- List.app_assoc, scanstring_escape_char, IH. reflexivity.
Qed.

Lemma encode_str_app (s : string) (rest : text) :
  encode_str s ++ rest
  = dquote :: (flat_map escape_char (list_ascii_of_string s) ++ dquote :: rest).
Proof.
  unfold encode_str. simpl. rewrite <- List.app_assoc. reflexivity.
Qed.

Lemma scanstring_encode_str (s : string) (rest : text) :
  scanstring (flat_map escape_char (list_ascii_of_string s) ++ dquote :: rest)
  = Some (s, rest).
Proof.
  rewrite scanstring_escaped, string_of_list_ascii_of_string. reflexivity.
Qed.

(** *** Integers *)

Lemma delimited_not_digit (c : ascii) (rest : text) :
  delimited (c :: rest) -> digit_of c = None.
Proof.
  unfold delimited, digit_of. intros [H | [H | H]]; rewrite H; reflexivity.
Qed.

Lemma delimited_not_float (rest : text) :
  delimited rest -> float_tail rest = false.
Proof.
  destruct rest as [|c rest]; simpl; [reflexivity|].
  intros [H | [H | H]]; rewrite H; reflexivity.
Qed.

Lemma scan_digits_digits (u : Decimal.uint) (rest : text) :
  delimited rest -> scan_digits (digits u ++ rest) = (u, rest).
Proof.
  intros Hrest.
  induction u as [| u IH | u IH | u IH | u IH | u IH | u IH | u IH | u IH
                 | u IH | u IH];
    simpl; try (rewrite IH; reflexivity).
  destruct rest as [|c rest]; simpl; [reflexivity|].
  rewrite (delimited_not_digit c rest Hrest). reflexivity.
Qed.

(** The decimal writing of a positive number has a first digit, which is not
    a zero. *)
Lemma to_uint_head (p : positive) :
  match Pos.to_uint p with
  | Decimal.Nil | Decimal.D0 _ => False
  | _ => True
  end.
Proof.
  assert (Hnorm : Decimal.unorm (Pos.to_uint p) = Pos.to_uint p).
  { rewrite <- (DecimalPos.Unsigned.to_of (Pos.to_uint p)).
    rewrite DecimalPos.Unsigned.of_to. reflexivity. }
  pose proof (DecimalPos.Unsigned.to_uint_nonnil p) as Hnil.
  pose proof (DecimalPos.Unsigned.to_uint_nonzero p) as Hzero.
  destruct (Pos.to_uint p) as [| u | u | u | u | u | u | u | u | u | u] eqn:E;
    try exact I.
  - apply Hnil. reflexivity.
  - rewrite DecimalFacts.unorm_D0 in Hnorm.
    unfold Decimal.unorm in Hnorm.
    destruct (Decimal.nzhead u) eqn:Eh;
      try (exact (DecimalFacts.nzhead_nonzero u u (eq_trans Eh Hnorm))).
    apply Hzero. rewrite <- Hnorm. reflexivity.
Qed.

Lemma of_uint_to_uint (p : positive) : Z.of_uint (Pos.to_uint p) = Zpos p.
Proof.
  unfold Z.of_uint. rewrite DecimalPos.Unsigned.of_to. reflexivity.
Qed.

Lemma scan_number_encode_int (z : Z) (rest : text) :
  delimited rest -> scan_number (encode_int z ++ rest) = Some (z, rest).
Proof.
  intros Hrest.
  pose proof (delimited_not_float rest Hrest) as Hfloat.
  destruct z as [| p | p]; simpl.
  - unfold scan_number. simpl. rewrite Hfloat. reflexivity.
  - pose proof (to_uint_head p) as Hhead.
    pose proof (scan_digits_digits (Pos.to_uint p) rest Hrest) as Hscan.
    pose proof (of_uint_to_uint p) as Hval.
    destruct (Pos.to_uint p) as [| u | u | u | u | u | u | u | u | u | u];
      try contradiction;
      unfold scan_number, scan_intpart; simpl digits; simpl app;
      cbv beta iota; simpl in Hscan |- *;
      rewrite Hscan; rewrite Hfloat; rewrite Hval; reflexivity.
  - pose proof (to_uint_head p) as Hhead.
    pose proof (scan_digits_digits (Pos.to_uint p) rest Hrest) as Hscan.
    pose proof (of_uint_to_uint p) as Hval.
    destruct (Pos.to_uint p) as [| u | u | u | u | u | u | u | u | u | u];
      try contradiction;
      unfold scan_number, scan_intpart; simpl digits; simpl app;
      cbv beta iota; simpl in Hscan |- *;
      rewrite Hscan; rewrite Hfloat; rewrite Hval; reflexivity.
Qed.

Lemma encode_int_head (z : Z) :
  exists c r, encode_int z = c :: r /\ number_start c = true.
Proof.
  destruct z as [| p | p]; simpl.
  - eexists _, _. split; reflexivity.
  - pose proof (to_uint_head p) as Hhead.
    destruct (Pos.to_uint p); try contradiction;
      eexists _, _; split; reflexivity.
  - eexists _, _. split; reflexivity.
Qed.

Lemma scan_once_number (fuel : nat) (c : ascii) (s : text) :
  number_start c = true ->
  scan_once (S fuel) (c :: s)
  = match scan_number (c :: s) with
    | Some (z, r1) => Some (PyInt z, r1)
    | None => None
    end.
Proof.
  destruct c as [[] [] [] [] [] [] [] []]; intros H;
    try discriminate H; reflexivity.
Qed.

Lemma scan_once_encode_int (fuel : nat) (z : Z) (rest : text) :
  delimited rest ->
  scan_once (S fuel) (encode_int z ++ rest) = Some (PyInt z, rest).
Proof.
  intros Hrest.
  pose proof (scan_number_encode_int z rest Hrest) as Hnum.
  destruct (encode_int_head z) as (c & r & E & Hc).
  rewrite E in Hnum |- *. simpl app in Hnum |- *.
  rewrite (scan_once_number fuel c (r ++ rest) Hc), Hnum. reflexivity.
Qed.

(** *** First characters *)

Lemma number_start_value_start (c : ascii) :
  number_start c = true -> value_start c = true.
Proof.
  destruct c as [[] [] [] [] [] [] [] []]; intros H;
    try discriminate H; reflexivity.
Qed.

Lemma starts_value_dumps (v : pyval) (t : text) :
  starts_value (dumps v ++ t) = true.
Proof.
  destruct v as [| [] | z | s | l | l | d]; try reflexivity.
  destruct (encode_int_head z) as (c & r & E & Hc).
  simpl. rewrite E. simpl. apply number_start_value_start, Hc.
Qed.

Lemma starts_value_join_dumps (v : pyval) (l : list pyval) (t : text) :
  starts_value (join (map dumps (v :: l)) ++ t) = true.
Proof.
  destruct l as [|y l]; cbn [map join].
  - apply starts_value_dumps.
  - rewrite <- List.app_assoc. apply starts_value_dumps.
Qed.

Lemma skip_ws_starts_value (s : text) :
  starts_value s = true -> skip_ws s = s.
Proof.
  destruct s as [|c s]; simpl; [reflexivity|].
  unfold value_start. destruct (is_ws c); [discriminate | reflexivity].
Qed.

Lemma starts_value_inv (s : text) :
  starts_value s = true ->
  exists c r, s = c :: r /\ (code c =? 93)%N = false /\ (code c =? 125)%N = false.
Proof.
  destruct s as [|c s]; simpl; [discriminate|].
  unfold value_start. intros H. exists c, s.
  destruct (is_ws c), (code c =? 93)%N, (code c =? 125)%N;
    try discriminate H; auto.
Qed.

(** *** [dict(pairs)] on distinct keys *)

Lemma dict_set_fresh (k : string) (v : pyval) (d : pydict) :
  ~ In k (map fst d) -> dict_set k v d = d ++ [(k, v)].
Proof.
  induction d as [|[k' v'] d IH]; simpl; intros Hk.
  - reflexivity.
  - destruct (String.eqb_spec k k') as [->|Hne].
    + exfalso. apply Hk. left. reflexivity.
    + rewrite IH; [reflexivity|]. intros Hin. apply Hk. right. exact Hin.
Qed.

Lemma fold_dict_set_nodup (ps acc : pydict) :
  NoDup (map fst (acc ++ ps)) ->
  fold_left (fun d kv => dict_set (fst kv) (snd kv) d) ps acc = acc ++ ps.
Proof.
  revert acc. induction ps as [|[k v] ps IH]; intros acc Hnd; simpl.
  - rewrite List.app_nil_r. reflexivity.
  - assert (Hfresh : ~ In k (map fst acc)).
    { rewrite map_app in Hnd. simpl in Hnd.
      apply NoDup_remove_2 in Hnd. intros Hin. apply Hnd.
      apply in_or_app. left. exact Hin. }
    rewrite (dict_set_fresh k v acc Hfresh).
    rewrite IH; rewrite <- List.app_assoc; simpl; [reflexivity | exact Hnd].
Qed.

Lemma dict_of_pairs_nodup (d : pydict) :
  NoDup (map fst d) -> dict_of_pairs d = d.
Proof.
  intros Hnd. unfold dict_of_pairs.
  rewrite (fold_dict_set_nodup d [] Hnd). reflexivity.
Qed.

(** *** Values *)

Lemma weight_pos (v : pyval) : 1 <= weight v.
Proof. destruct v; simpl; lia. Qed.

Lemma weight_list_cons (x : pyval) (l : list pyval) :
  weight (PyList (x :: l)) = S (weight x + weight (PyList l)).
Proof. simpl. lia. Qed.

Lemma weight_dict_cons (kv : string * pyval) (d : pydict) :
  weight (PyDict (kv :: d)) = S (weight (snd kv) + weight (PyDict d)).
Proof. simpl. lia. Qed.

Lemma wf_list_cons (x : pyval) (l : list pyval) :
  wf_pyval (PyList (x :: l)) <-> wf_pyval x /\ wf_pyval (PyList l).
Proof. simpl. tauto. Qed.

Lemma wf_dict_values_cons (kv : string * pyval) (d : pydict) :
  wf_pyval (PyDict (kv :: d)) ->
  wf_pyval (snd kv) /\ wf_pyval (PyDict d).
Proof.
  simpl. intros [Hnd [Hx Hall]]. inversion Hnd; subst. tauto.
Qed.

Lemma join_cons (p q : text) (ps : list text) :
  join (p :: q :: ps) = p ++ ","%char :: " "%char :: join (q :: ps).
Proof. reflexivity. Qed.

Lemma scan_elems_step (fuel : nat) (x : pyval) (s r : text) :
  scan_once fuel s = Some (x, r) ->
  scan_elems (S fuel) s
  = match skip_ws r with
    | [] => None
    | c :: r1 =>
        if (code c =? 93)%N then Some ([x], r1)
        else if (code c =? 44)%N then
          match scan_elems fuel (skip_ws r1) with
          | Some (vs, r2) => Some (x :: vs, r2)
          | None => None
          end
        else None
    end.
Proof. intros H. cbn [scan_elems]. rewrite H. reflexivity. Qed.

Lemma scan_elems_join (l : list pyval) :
  Forall reads_back l -> l <> [] ->
  forall fuel rest,
    weight (PyList l) <= S fuel -> wf_pyval (PyList l) ->
    scan_elems fuel (join (map dumps l) ++ "]"%char :: rest)
    = Some (map listify l, rest).
Proof.
  induction 1 as [|x l Hx Hl IH]; intros Hne fuel rest Hfuel Hwf;
    [contradiction Hne; reflexivity|].
  rewrite weight_list_cons in Hfuel.
  apply wf_list_cons in Hwf. destruct Hwf as [Hwfx Hwfl].
  pose proof (weight_pos x) as Hposx.
  pose proof (weight_pos (PyList l)) as Hposl.
  destruct fuel as [|fuel]; [lia|].
  destruct l as [|y l].
  - rewrite (scan_elems_step fuel (listify x) _ ("]"%char :: rest));
      [reflexivity|].
    apply Hx; [lia | simpl; auto | exact Hwfx].
  - rewrite !map_cons, join_cons, <- List.app_assoc, <- !app_comm_cons.
    rewrite <- map_cons.
    rewrite (scan_elems_step fuel (listify x) _
               (","%char :: " "%char
                :: join (map dumps (y :: l)) ++ "]"%char :: rest));
      [| apply Hx; [lia | simpl; auto | exact Hwfx]].
    change (skip_ws (","%char :: " "%char
                     :: join (map dumps (y :: l)) ++ "]"%char :: rest))
      with (","%char :: " "%char
            :: join (map dumps (y :: l)) ++ "]"%char :: rest).
    change (code ","%char =? 93)%N with false.
    change (code ","%char =? 44)%N with true.
    cbv iota.
    change (skip_ws (" "%char :: join (map dumps (y :: l)) ++ "]"%char :: rest))
      with (skip_ws (join (map dumps (y :: l)) ++ "]"%char :: rest)).
    rewrite skip_ws_starts_value by (apply starts_value_join_dumps).
    rewrite (IH ltac:(discriminate) fuel rest); [reflexivity | lia | exact Hwfl].
Qed.

Lemma member_app (k : string) (v : pyval) (t : text) :
  member (k, v) ++ t
  = dquote :: (flat_map escape_char (list_ascii_of_string k)
               ++ dquote :: ":"%char :: " "%char :: dumps v ++ t).
Proof.
  unfold member, encode_str. simpl.
  rewrite <- !List.app_assoc. reflexivity.
Qed.

Lemma starts_value_member (kv : string * pyval) (t : text) :
  starts_value (member kv ++ t) = true.
Proof. destruct kv as [k v]. rewrite member_app. reflexivity. Qed.

Lemma starts_value_join_members (kv : string * pyval) (d : pydict) (t : text) :
  starts_value (join (map member (kv :: d)) ++ t) = true.
Proof.
  destruct d as [|kv' d].
  - apply starts_value_member.
  - rewrite !map_cons, join_cons, <- List.app_assoc.
    apply starts_value_member.
Qed.

Lemma scan_members_step (fuel : nat) (k : string) (v v' : pyval) (t : text) :
  scan_once fuel (dumps v ++ t) = Some (v', t) ->
  scan_members (S fuel) (member (k, v) ++ t)
  = match skip_ws t with
    | [] => None
    | c :: r =>
        if (code c =? 125)%N then Some ([(k, v')], r)
        else if (code c =? 44)%N then
          match scan_members fuel (skip_ws r) with
          | Some (ps, r') => Some ((k, v') :: ps, r')
          | None => None
          end
        else None
    end.
Proof.
  intros H. rewrite member_app. cbn [scan_members].
  change (negb (code dquote =? 34)%N) with false. cbv iota.
  rewrite scanstring_encode_str.
  change (skip_ws (":"%char :: " "%char :: dumps v ++ t))
    with (":"%char :: " "%char :: dumps v ++ t).
  cbv iota.
  change (negb (code ":"%char =? 58)%N) with false. cbv iota.
  change (skip_ws (" "%char :: dumps v ++ t)) with (skip_ws (dumps v ++ t)).
  rewrite skip_ws_starts_value by (apply starts_value_dumps).
  rewrite H. reflexivity.
Qed.

Lemma scan_members_join (d : pydict) :
  Forall (fun kv => reads_back (snd kv)) d -> d <> [] ->
  forall fuel rest,
    weight (PyDict d) <= S fuel -> wf_pyval (PyDict d) ->
    scan_members fuel (join (map member d) ++ "}"%char :: rest)
    = Some (listify_dict d, rest).
Proof.
  induction 1 as [|[k v] d Hx Hd IH]; intros Hne fuel rest Hfuel Hwf;
    [contradiction Hne; reflexivity|].
  rewrite weight_dict_cons in Hfuel.
  apply wf_dict_values_cons in Hwf. destruct Hwf as [Hwfx Hwfd].
  cbn [snd] in *.
  pose proof (weight_pos v) as Hposx.
  pose proof (weight_pos (PyDict d)) as Hposd.
  destruct fuel as [|fuel]; [lia|].
  destruct d as [|kv' d].
  - cbn [map join].
    rewrite (scan_members_step fuel k v (listify v) ("}"%char :: rest));
      [reflexivity|].
    apply Hx; [lia | simpl; auto | exact Hwfx].
  - rewrite !map_cons, join_cons, <- List.app_assoc, <- !app_comm_cons.
    rewrite <- map_cons.
    rewrite (scan_members_step fuel k v (listify v));
      [| apply Hx; [lia | simpl; auto | exact Hwfx]].
    change (skip_ws (","%char :: " "%char
                     :: join (map member (kv' :: d)) ++ "}"%char :: rest))
      with (","%char :: " "%char
            :: join (map member (kv' :: d)) ++ "}"%char :: rest).
    change (code ","%char =? 125)%N with false.
    change (code ","%char =? 44)%N with true.
    cbv iota.
    change (skip_ws (" "%char :: join (map member (kv' :: d)) ++ "}"%char :: rest))
      with (skip_ws (join (map member (kv' :: d)) ++ "}"%char :: rest)).
    rewrite skip_ws_starts_value by (apply starts_value_join_members).
    rewrite (IH ltac:(discriminate) fuel rest); [reflexivity | lia | exact Hwfd].
Qed.

Lemma scan_once_list (fuel : nat) (t : text) :
  scan_once (S fuel) ("["%char :: t)
  = match skip_ws t with
    | [] => None
    | c1 :: r1 =>
        if (code c1 =? 93)%N then Some (PyList [], r1)
        else match scan_elems fuel (c1 :: r1) with
             | Some (vs, r2) => Some (PyList vs, r2)
             | None => None
             end
    end.
Proof. reflexivity. Qed.

Lemma scan_once_dict (fuel : nat) (t : text) :
  scan_once (S fuel) ("{"%char :: t)
  = match skip_ws t with
    | [] => None
    | c1 :: r1 =>
        if (code c1 =? 125)%N then Some (PyDict [], r1)
        else match scan_members fuel (c1 :: r1) with
             | Some (ps, r2) => Some (PyDict (dict_of_pairs ps), r2)
             | None => None
             end
    end.
Proof. reflexivity. Qed.

Lemma dumps_dict (d : pydict) :
  dumps (PyDict d) = "{"%char :: join (map member d) ++ ["}"%char].
Proof. reflexivity. Qed.

Lemma dumps_list (l : list pyval) :
  dumps (PyList l) = "["%char :: join (map dumps l) ++ ["]"%char].
Proof. reflexivity. Qed.

Lemma dumps_tuple (l : list pyval) : dumps (PyTuple l) = dumps (PyList l).
Proof. reflexivity. Qed.

Lemma keys_listify_dict (d : pydict) :
  map fst (listify_dict d) = map fst d.
Proof.
  unfold listify_dict. rewrite map_map. apply map_ext. reflexivity.
Qed.

Theorem scan_once_dumps (v : pyval) : reads_back v.
Proof.
  induction v as [| b | z | s | l IH | l IH | d IH] using pyval_nested_ind;
    intros fuel rest Hfuel Hrest Hwf;
    (destruct fuel as [|fuel]; [simpl in Hfuel; lia|]).
  - reflexivity.
  - destruct b; reflexivity.
  - apply scan_once_encode_int, Hrest.
  - cbn [dumps]. rewrite encode_str_app.
    cbn [scan_once]. change (code dquote =? 34)%N with true. cbv iota.
    rewrite scanstring_encode_str. reflexivity.
  - rewrite dumps_list, <- app_comm_cons, <- List.app_assoc, scan_once_list.
    destruct l as [|x l]; [reflexivity|].
    cbn [app].
    rewrite skip_ws_starts_value by (apply starts_value_join_dumps).
    destruct (starts_value_inv _
                (starts_value_join_dumps x l ("]"%char :: rest)))
      as (c1 & r1 & E & Hc & _).
    rewrite E, Hc, <- E.
    rewrite (scan_elems_join (x :: l) IH ltac:(discriminate) fuel rest Hfuel Hwf).
    reflexivity.
  - rewrite dumps_tuple, dumps_list, <- app_comm_cons, <- List.app_assoc,
      scan_once_list.
    destruct l as [|x l]; [reflexivity|].
    cbn [app].
    rewrite skip_ws_starts_value by (apply starts_value_join_dumps).
    destruct (starts_value_inv _
                (starts_value_join_dumps x l ("]"%char :: rest)))
      as (c1 & r1 & E & Hc & _).
    rewrite E, Hc, <- E.
    rewrite (scan_elems_join (x :: l) IH ltac:(discriminate) fuel rest Hfuel Hwf).
    reflexivity.
  - rewrite dumps_dict, <- app_comm_cons, <- List.app_assoc, scan_once_dict.
    destruct d as [|kv d]; [reflexivity|].
    cbn [app].
    rewrite skip_ws_starts_value by (apply starts_value_join_members).
    destruct (starts_value_inv _
                (starts_value_join_members kv d ("}"%char :: rest)))
      as (c1 & r1 & E & _ & Hc).
    rewrite E, Hc, <- E.
    rewrite (scan_members_join (kv :: d) IH ltac:(discriminate) fuel rest Hfuel Hwf).
    rewrite dict_of_pairs_nodup; [reflexivity|].
    rewrite keys_listify_dict. destruct Hwf as [Hnd _]. exact Hnd.
Qed.

(** *** Enough fuel *)

Lemma weight_list_le (l : list pyval) :
  Forall (fun v => weight v <= List.length (dumps v)) l ->
  weight (PyList l) <= List.length (join (map dumps l)) + 2.
Proof.
  induction 1 as [|x l Hx Hl IH]; [simpl; lia|].
  rewrite weight_list_cons.
  destruct l as [|y l].
  - simpl in *. lia.
  - rewrite !map_cons, join_cons, <- map_cons.
    rewrite length_app. cbn [List.length]. lia.
Qed.

Lemma length_member (kv : string * pyval) :
  List.length (dumps (snd kv)) <= List.length (member kv).
Proof.
  unfold member. rewrite !length_app. lia.
Qed.

Lemma weight_dict_le (d : pydict) :
  Forall (fun kv => weight (snd kv) <= List.length (dumps (snd kv))) d ->
  weight (PyDict d) <= List.length (join (map member d)) + 2.
Proof.
  induction 1 as [|x d Hx Hd IH]; [simpl; lia|].
  rewrite weight_dict_cons.
  pose proof (length_member x) as Hm.
  destruct d as [|y d].
  - simpl in *. lia.
  - rewrite !map_cons, join_cons, <- map_cons.
    rewrite length_app. cbn [List.length]. lia.
Qed.

Lemma weight_le_length (v : pyval) : weight v <= List.length (dumps v).
Proof.
  induction v as [| b | z | s | l IH | l IH | d IH] using pyval_nested_ind.
  - simpl. lia.
  - destruct b; simpl; lia.
  - destruct (encode_int_head z) as (c & r & E & _).
    cbn [dumps weight]. rewrite E. simpl. lia.
  - cbn [dumps weight]. unfold encode_str. simpl. lia.
  - pose proof (weight_list_le l IH).
    rewrite dumps_list. cbn [List.length]. rewrite length_app.
    cbn [List.length]. lia.
  - pose proof (weight_list_le l IH).
    change (weight (PyTuple l)) with (weight (PyList l)).
    rewrite dumps_tuple, dumps_list. cbn [List.length]. rewrite length_app.
    cbn [List.length]. lia.
  - pose proof (weight_dict_le d IH).
    rewrite dumps_dict. cbn [List.length]. rewrite length_app.
    cbn [List.length]. lia.
Qed.

(** [json.loads(json.dumps(v))]: the value, with lists in place of its
    tuples. *)
Theorem loads_dumps (v : pyval) :
  wf_pyval v -> loads (dumps v) = Some (listify v).
Proof.
  intros Hwf. unfold loads.
  pose proof (starts_value_dumps v []) as Hstart.
  rewrite List.app_nil_r in Hstart.
  rewrite (skip_ws_starts_value _ Hstart).
  pose proof (scan_once_dumps v (S (List.length (dumps v))) []) as Hscan.
  rewrite List.app_nil_r in Hscan.
  rewrite Hscan; [reflexivity | | exact I | exact Hwf].
  pose proof (weight_le_length v). lia.
Qed.

(** *** Values without a tuple *)

Lemma map_id_on {A : Type} (f : A -> A) (l : list A) :
  Forall (fun x => f x = x) l -> map f l = l.
Proof.
  induction 1 as [|x l Hx Hl IH]; [reflexivity|].
  cbn [map]. rewrite Hx, IH. reflexivity.
Qed.

Lemma listify_native (v : pyval) : json_native v = true -> listify v = v.
Proof.
  induction v as [| b | z | s | l IH | l IH | d IH] using pyval_nested_ind;
    cbn [json_native listify]; intros H; try reflexivity; try discriminate H.
  - f_equal. apply map_id_on.
    rewrite forallb_forall in H. rewrite Forall_forall in IH |- *.
    intros x Hx. apply (IH x Hx), (H x Hx).
  - f_equal. apply map_id_on.
    rewrite forallb_forall in H. rewrite Forall_forall in IH |- *.
    intros [k x] Hx. cbn [fst snd]. f_equal. apply (IH _ Hx), (H _ Hx).
Qed.

Lemma listify_dict_native (d : pydict) :
  json_native (PyDict d) = true -> listify_dict d = d.
Proof.
  intros H. apply listify_native in H. cbn [listify] in H.
  injection H as H. exact H.
Qed.

Lemma map_fixed {A : Type} (f : A -> A) (l : list A) :
  map f l = l -> Forall (fun x => f x = x) l.
Proof.
  induction l as [|x l IH]; cbn [map]; intros H; [constructor|].
  injection H as Hx Hl. constructor; [exact Hx | exact (IH Hl)].
Qed.

(** Only a value without a tuple comes back from JSON as it was. *)
Lemma listify_fixed (v : pyval) : listify v = v -> json_native v = true.
Proof.
  induction v as [| b | z | s | l IH | l IH | d IH] using pyval_nested_ind;
    cbn [json_native listify]; intros H; try reflexivity.
  - injection H as H. apply map_fixed in H.
    apply forallb_forall. rewrite Forall_forall in IH, H.
    intros x Hx. apply (IH x Hx), (H x Hx).
  - discriminate H.
  - injection H as H. apply map_fixed in H.
    apply forallb_forall. rewrite Forall_forall in IH, H.
    intros [k x] Hx. apply (IH _ Hx).
    specialize (H _ Hx). cbn [fst snd] in H |- *. congruence.
Qed.

Lemma listify_dict_fixed (d : pydict) :
  listify_dict d = d <-> json_native (PyDict d) = true.
Proof.
  split; [|apply listify_dict_native].
  intros H. apply listify_fixed.
  change (listify (PyDict d)) with (PyDict (listify_dict d)).
  rewrite H. reflexivity.
Qed.

(** [json.loads(json.dumps(v)) == v] for a value without a tuple. *)
Theorem loads_dumps_native (v : pyval) :
  wf_pyval v -> json_native v = true -> loads (dumps v) = Some v.
Proof.
  intros Hwf Hnative. rewrite (loads_dumps v Hwf), (listify_native v Hnative).
  reflexivity.
Qed.

(** A value and what JSON gives back for it have the same text. *)
Lemma dumps_listify (v : pyval) : dumps (listify v) = dumps v.
Proof.
  induction v as [| b | z | s | l IH | l IH | d IH] using pyval_nested_ind;
    cbn [listify]; try reflexivity.
  - rewrite !dumps_list, map_map, (map_ext_Forall _ _ IH). reflexivity.
  - rewrite dumps_tuple, !dumps_list, map_map, (map_ext_Forall _ _ IH).
    reflexivity.
  - assert (Hd : Forall (fun kv => member (fst kv, listify (snd kv)) = member kv)
                   d).
    { eapply Forall_impl; [|exact IH].
      intros [k x] Hx. unfold member. cbn [fst snd] in *. rewrite Hx.
      reflexivity. }
    rewrite !dumps_dict, map_map, (map_ext_Forall _ _ Hd). reflexivity.
Qed.

(** *** The text is ASCII *)

Lemma escape_char_ascii (c : ascii) : forallb is_ascii (escape_char c) = true.
Proof. destruct c as [[] [] [] [] [] [] [] []]; reflexivity. Qed.

Lemma encode_str_ascii (s : string) : forallb is_ascii (encode_str s) = true.
Proof.
  unfold encode_str. cbn [forallb]. rewrite forallb_app.
  change (is_ascii dquote) with true. cbn [forallb andb].
  rewrite Bool.andb_true_r.
  induction (list_ascii_of_string s) as [|c cs IH]; [reflexivity|].
  cbn [flat_map]. rewrite forallb_app, escape_char_ascii, IH. reflexivity.
Qed.

Lemma digits_ascii (u : Decimal.uint) : forallb is_ascii (digits u) = true.
Proof. induction u; simpl; auto. Qed.

Lemma encode_int_ascii (z : Z) : forallb is_ascii (encode_int z) = true.
Proof.
  destruct z; simpl; try apply digits_ascii; reflexivity.
Qed.

Lemma join_ascii (ps : list text) :
  Forall (fun p => forallb is_ascii p = true) ps ->
  forallb is_ascii (join ps) = true.
Proof.
  induction 1 as [|p ps Hp Hps IH]; [reflexivity|].
  destruct ps as [|q ps]; [exact Hp|].
  rewrite join_cons, forallb_app, Hp. cbn [forallb].
  rewrite IH. reflexivity.
Qed.

Theorem dumps_ascii (v : pyval) : forallb is_ascii (dumps v) = true.
Proof.
  induction v as [| b | z | s | l IH | l IH | d IH] using pyval_nested_ind.
  - reflexivity.
  - destruct b; reflexivity.
  - apply encode_int_ascii.
  - apply encode_str_ascii.
  - rewrite dumps_list. cbn [forallb]. rewrite forallb_app, join_ascii.
    + reflexivity.
    + apply Forall_map. exact IH.
  - rewrite dumps_tuple, dumps_list. cbn [forallb].
    rewrite forallb_app, join_ascii.
    + reflexivity.
    + apply Forall_map. exact IH.
  - rewrite dumps_dict. cbn [forallb]. rewrite forallb_app, join_ascii.
    + reflexivity.
    + apply Forall_map. eapply Forall_impl; [|exact IH].
      intros [k v] Hv. unfold member.
      rewrite !forallb_app, encode_str_ascii, Hv. reflexivity.
Qed.

(** *** What [json.loads] returns has distinct keys *)

Lemma wf_dict_iff (d : pydict) :
  wf_pyval (PyDict d)
  <-> NoDup (map fst d) /\ Forall (fun kv => wf_pyval (snd kv)) d.
Proof.
  cbn [wf_pyval]. apply and_iff_compat_l.
  induction d as [|kv d IH]; split; intros H.
  - constructor.
  - exact I.
  - destruct H as [Hkv Hd]. constructor; [exact Hkv | apply IH, Hd].
  - inversion H; subst. split; [assumption | apply IH; assumption].
Qed.

Lemma wf_list_iff (l : list pyval) :
  wf_pyval (PyList l) <-> Forall wf_pyval l.
Proof.
  cbn [wf_pyval].
  induction l as [|x l IH]; split; intros H.
  - constructor.
  - exact I.
  - destruct H as [Hx Hl]. constructor; [exact Hx | apply IH, Hl].
  - inversion H; subst. split; [assumption | apply IH; assumption].
Qed.

Lemma in_keys_dict_set (x k : string) (v : pyval) (d : pydict) :
  In x (map fst (dict_set k v d)) -> x = k \/ In x (map fst d).
Proof.
  induction d as [|[k' v'] d IH]; cbn [dict_set map fst In].
  - intros [<- | []]. left. reflexivity.
  - destruct (String.eqb k k'); cbn [map fst In].
    + intros H. right. exact H.
    + intros [<- | H]; [right; left; reflexivity|].
      destruct (IH H) as [-> | Hin]; [left; reflexivity | right; right; exact Hin].
Qed.

Lemma in_keys_dict_del (x k : string) (d : pydict) :
  In x (map fst (dict_del k d)) -> In x (map fst d).
Proof.
  induction d as [|[k' v'] d IH]; cbn [dict_del map fst In]; [tauto|].
  destruct (String.eqb k k'); cbn [map fst In]; [tauto|].
  intros [<- | H]; [left; reflexivity | right; apply IH, H].
Qed.

Lemma wf_dict_set (k : string) (v : pyval) (d : pydict) :
  wf_pyval (PyDict d) -> wf_pyval v -> wf_pyval (PyDict (dict_set k v d)).
Proof.
  rewrite !wf_dict_iff. intros [Hnd Hall] Hv.
  induction d as [|[k' v'] d IH]; cbn [dict_set].
  - split; [constructor; [intros [] | constructor]|].
    constructor; [exact Hv | constructor].
  - inversion Hnd as [|? ? Hk' Hnd']; subst.
    inversion Hall as [|? ? Hv' Hall']; subst.
    destruct (String.eqb_spec k k') as [->|Hne].
    + split; [exact Hnd|]. constructor; [exact Hv | exact Hall'].
    + destruct (IH Hnd' Hall') as [IHnd IHall].
      split.
      * cbn [map fst]. constructor; [|exact IHnd].
        intros Hin. apply in_keys_dict_set in Hin.
        destruct Hin as [-> | Hin]; [apply Hne; reflexivity | apply Hk', Hin].
      * constructor; [exact Hv' | exact IHall].
Qed.

Lemma wf_dict_del (k : string) (d : pydict) :
  wf_pyval (PyDict d) -> wf_pyval (PyDict (dict_del k d)).
Proof.
  rewrite !wf_dict_iff. intros [Hnd Hall].
  induction d as [|[k' v'] d IH]; cbn [dict_del].
  - split; constructor.
  - inversion Hnd as [|? ? Hk' Hnd']; subst.
    inversion Hall as [|? ? Hv' Hall']; subst.
    destruct (IH Hnd' Hall') as [IHnd IHall].
    destruct (String.eqb k k'); [split; assumption|].
    split.
    + cbn [map fst]. constructor; [|exact IHnd].
      intros Hin. apply Hk', (in_keys_dict_del _ _ _ Hin).
    + constructor; [exact Hv' | exact IHall].
Qed.

Lemma wf_dict_of_pairs (ps : pydict) :
  Forall (fun kv => wf_pyval (snd kv)) ps ->
  wf_pyval (PyDict (dict_of_pairs ps)).
Proof.
  unfold dict_of_pairs.
  assert (Hacc : wf_pyval (PyDict [])) by (split; [constructor | exact I]).
  revert Hacc. generalize (@nil (string * pyval)) as acc.
  induction ps as [|[k v] ps IH]; intros acc Hacc Hps; cbn [fold_left fst snd].
  - exact Hacc.
  - inversion Hps; subst. apply IH; [|assumption].
    apply wf_dict_set; assumption.
Qed.

Lemma scan_wf (fuel : nat) :
  (forall s v r, scan_once fuel s = Some (v, r) -> wf_pyval v)
  /\ (forall s vs r, scan_elems fuel s = Some (vs, r) -> Forall wf_pyval vs)
  /\ (forall s ps r,
         scan_members fuel s = Some (ps, r) ->
         Forall (fun kv => wf_pyval (snd kv)) ps).
Proof.
  induction fuel as [|fuel (IHv & IHe & IHm)].
  - repeat split; intros; discriminate.
  - split; [|split].
    + intros s v r H. cbn [scan_once] in H.
      scan_cases H; injection H as <- <-; try exact I.
      * apply wf_dict_iff. split; constructor.
      * apply wf_dict_of_pairs. eapply IHm. eassumption.
      * apply wf_list_iff. eapply IHe. eassumption.
    + intros s vs r H. cbn [scan_elems] in H.
      scan_cases H; injection H as <- <-.
      * constructor; [eapply IHv; eassumption | constructor].
      * constructor; [eapply IHv; eassumption | eapply IHe; eassumption].
    + intros s ps r H. cbn [scan_members] in H.
      scan_cases H; injection H as <- <-.
      * constructor; [cbn [snd]; eapply IHv; eassumption | constructor].
      * constructor; [cbn [snd]; eapply IHv; eassumption
                     | eapply IHm; eassumption].
Qed.

(** [json.loads] returns values whose dicts have distinct keys. *)
Theorem loads_wf (s : text) (v : pyval) : loads s = Some v -> wf_pyval v.
Proof.
  unfold loads. intros H. scan_cases H. injection H as <-.
  eapply (proj1 (scan_wf _)). eassumption.
Qed.

End JsonRoundTrip.

(* ================================================================== *)
(** * The bytes of the region *)
(* ================================================================== *)

Section Region.

Lemma encode_snapshot (d : pydict) :
  encode_ascii (Json.dumps (PyDict d)) = Ok (snapshot d).
Proof.
  unfold encode_ascii. rewrite dumps_ascii. reflexivity.
Qed.

Lemma to_N_byte_of_ascii (c : ascii) :
  Byte.to_N (byte_of_ascii c) = Json.code c.
Proof. destruct c as [[] [] [] [] [] [] [] []]; reflexivity. Qed.

Lemma decode_ascii_padded (s : Json.text) (n : nat) :
  forallb is_ascii s = true ->
  decode_ascii (map byte_of_ascii s ++ repeat NUL n)
  = Ok (s ++ repeat Ascii.zero n).
Proof.
  intros Hs. unfold decode_ascii.
  assert (Hall : forallb (fun x => (Byte.to_N x <? 128)%N)
                   (map byte_of_ascii s ++ repeat NUL n) = true).
  { rewrite forallb_app. apply andb_true_intro. split.
    - rewrite forallb_forall in Hs |- *. intros b Hb.
      apply in_map_iff in Hb. destruct Hb as (c & <- & Hc).
      rewrite to_N_byte_of_ascii. apply (Hs c Hc).
    - apply forallb_forall. intros b Hb.
      apply repeat_spec in Hb. subst b. reflexivity. }
  rewrite Hall, map_app, map_map.
  rewrite (map_ext _ (fun c => c) ascii_of_byte_of_ascii), map_id.
  rewrite map_repeat. reflexivity.
Qed.

Lemma rstrip_nul_zeros (n : nat) : rstrip_nul (repeat Ascii.zero n) = [].
Proof.
  induction n as [|n IH]; [reflexivity|].
  unfold rstrip_nul in *. cbn [repeat fold_right]. rewrite IH. reflexivity.
Qed.

Lemma rstrip_nul_app (s t : Json.text) :
  rstrip_nul t = [] -> rstrip_nul (s ++ t) = rstrip_nul s.
Proof.
  intros Ht. induction s as [|c s IH]; [exact Ht|].
  unfold rstrip_nul in *. cbn [app fold_right]. rewrite IH. reflexivity.
Qed.

Lemma rstrip_nul_last (s : Json.text) (c : ascii) :
  (Json.code c =? 0)%N = false -> rstrip_nul (s ++ [c]) = s ++ [c].
Proof.
  intros Hc. induction s as [|a s IH].
  - unfold rstrip_nul. cbn [app fold_right]. rewrite Hc. reflexivity.
  - unfold rstrip_nul in *. cbn [app fold_right]. rewrite IH.
    destruct s; reflexivity.
Qed.

(** The text of a dict is unchanged by [rstrip('\0')], also when null
    characters follow it. *)
Lemma rstrip_nul_dumps_dict (d : pydict) (n : nat) :
  rstrip_nul (Json.dumps (PyDict d) ++ repeat Ascii.zero n)
  = Json.dumps (PyDict d).
Proof.
  rewrite rstrip_nul_app by (apply rstrip_nul_zeros).
  rewrite dumps_dict, app_comm_cons.
  apply rstrip_nul_last. reflexivity.
Qed.

(** [_read_data] on a region that holds the snapshot of a map and null
    bytes after it returns the map, with lists in place of its tuples. *)
Lemma read_data_snapshot (d : pydict) (n p : nat) :
  wf_pyval (PyDict d) ->
  _read_data {| Mmap.buf := snapshot d ++ repeat NUL n; Mmap.pos := p |}
  = Ok (listify_dict d).
Proof.
  intros Hwf. unfold _read_data, Mmap.read_all, snapshot. cbn [Mmap.buf].
  rewrite decode_ascii_padded by (apply dumps_ascii).
  rewrite rstrip_nul_dumps_dict, (loads_dumps _ Hwf). reflexivity.
Qed.

Lemma mmap_nonempty (file : list byte) :
  file <> [] -> Mmap.mmap file = Ok {| Mmap.buf := file; Mmap.pos := 0 |}.
Proof. destruct file; [contradiction | reflexivity]. Qed.

Lemma resize_positive (n : nat) (m : Mmap.t) :
  0 < n ->
  Mmap.resize n m
  = Ok {| Mmap.buf := firstn n (Mmap.buf m)
                      ++ repeat NUL (n - List.length (Mmap.buf m));
          Mmap.pos := Mmap.pos m |}.
Proof. destruct n; [lia | reflexivity]. Qed.

Lemma resize_size (n : nat) (m m' : Mmap.t) :
  Mmap.resize n m = Ok m' -> Mmap.size m' = n.
Proof.
  intros H. destruct (Nat.eq_dec n 0) as [-> | Hn]; [discriminate H|].
  rewrite resize_positive in H by lia.
  assert (E : m' = {| Mmap.buf := firstn n (Mmap.buf m)
                                  ++ repeat NUL (n - List.length (Mmap.buf m));
                      Mmap.pos := Mmap.pos m |}) by congruence.
  subst m'. unfold Mmap.size. cbn [Mmap.buf].
  rewrite length_app, length_firstn, repeat_length. lia.
Qed.

Lemma firstn_repeat_pad {A : Type} (x : A) (n k : nat) :
  firstn k (repeat x n) ++ repeat x (k - n) = repeat x k.
Proof.
  assert (Hall : Forall (eq x) (firstn k (repeat x n) ++ repeat x (k - n))).
  { apply Forall_app. split; apply Forall_forall; intros y Hy.
    - assert (Hin : In y (repeat x n)).
      { rewrite <- (firstn_skipn k). apply in_or_app. left. exact Hy. }
      apply repeat_spec in Hin. congruence.
    - apply repeat_spec in Hy. congruence. }
  apply Forall_eq_repeat in Hall. rewrite Hall. f_equal.
  rewrite length_app, length_firstn, !repeat_length. lia.
Qed.

(** The text of a map has two characters or more. *)
Lemma length_snapshot_two (d : pydict) : 2 <= List.length (snapshot d).
Proof.
  unfold snapshot. rewrite length_map. cbn [Json.dumps List.length].
  rewrite length_app. cbn [List.length]. lia.
Qed.

(** The resize of a file that holds a snapshot and null bytes, to a
    capacity that the snapshot fits. *)
Lemma resize_snapshot_padded (d : pydict) (n capacity p : nat) :
  List.length (snapshot d) <= capacity ->
  Mmap.resize capacity
    {| Mmap.buf := snapshot d ++ repeat NUL n; Mmap.pos := p |}
  = Ok {| Mmap.buf := snapshot d
                      ++ repeat NUL (capacity - List.length (snapshot d));
          Mmap.pos := p |}.
Proof.
  intros Hfit. pose proof (length_snapshot_two d) as Htwo.
  rewrite resize_positive by lia. cbn [Mmap.buf Mmap.pos]. do 2 f_equal.
  rewrite firstn_app, (firstn_all2 (snapshot d)) by exact Hfit.
  rewrite <- List.app_assoc. f_equal.
  rewrite length_app, repeat_length.
  rewrite <- (firstn_repeat_pad NUL n (capacity - List.length (snapshot d))).
  do 2 f_equal. lia.
Qed.

Lemma length_snapshot (d : pydict) :
  List.length (snapshot d) = List.length (Json.dumps (PyDict d)).
Proof. unfold snapshot. apply length_map. Qed.

Lemma snapshot_listify (d : pydict) : snapshot (listify_dict d) = snapshot d.
Proof.
  unfold snapshot. f_equal. exact (dumps_listify (PyDict d)).
Qed.

(** What [flush] does: the snapshot and null bytes up to the size of the
    region when the snapshot fits, and nothing but the [seek] otherwise. *)
Lemma flush_eq (self : DataStore) :
  flush self
  = let region := Mmap.buf (mmap self) in
    let b := snapshot (data self) in
    if List.length b <=? List.length region then
      (Ok tt,
       {| data := data self;
          mmap := {| Mmap.buf := b ++ repeat NUL (List.length region - List.length b);
                     Mmap.pos := List.length b |} |})
    else
      (Raise MmapDataOutOfRange,
       {| data := data self; mmap := Mmap.seek 0 (mmap self) |}).
Proof.
  destruct self as [d [region p]].
  unfold flush, bind, get_mmap, set_mmap, get_data, lift.
  cbn [data mmap]. rewrite encode_snapshot.
  generalize (snapshot d) as b. intros b.
  unfold Mmap.write, Mmap.seek. cbn [Mmap.buf Mmap.pos Nat.add firstn app].
  destruct (List.length b <=? List.length region) eqn:Hfit; [|reflexivity].
  apply Nat.leb_le in Hfit.
  unfold Mmap.set_from, Mmap.size, Mmap.tell. cbn [Mmap.buf Mmap.pos].
  rewrite !length_app, !repeat_length, !length_skipn.
  replace (List.length b + (List.length region - List.length b) - List.length b)
    with (List.length region - List.length b) by lia.
  rewrite Nat.eqb_refl.
  rewrite firstn_app, firstn_all, Nat.sub_diag. cbn [firstn].
  rewrite List.app_nil_r. reflexivity.
Qed.

Lemma flush_data (self : DataStore) : data (snd (flush self)) = data self.
Proof.
  rewrite flush_eq. cbv zeta.
  destruct (_ <=? _); reflexivity.
Qed.

End Region.

(* ================================================================== *)
(** * The dict of the store *)
(* ================================================================== *)

Section Dict.

Lemma dict_get_set_eq (k : string) (v : pyval) (d : pydict) :
  dict_get k (dict_set k v d) = Some v.
Proof.
  induction d as [|[k' v'] d IH]; simpl.
  - rewrite String.eqb_refl. reflexivity.
  - destruct (String.eqb k k') eqn:E; simpl; rewrite E; [reflexivity | exact IH].
Qed.

Lemma dict_get_set_ne (k k' : string) (v : pyval) (d : pydict) :
  k <> k' -> dict_get k (dict_set k' v d) = dict_get k d.
Proof.
  intros Hne. induction d as [|[k0 v0] d IH]; simpl.
  - apply String.eqb_neq in Hne. rewrite Hne. reflexivity.
  - destruct (String.eqb_spec k' k0) as [->|Hk0]; simpl.
    + apply String.eqb_neq in Hne. rewrite Hne. reflexivity.
    + rewrite IH. reflexivity.
Qed.

Lemma dict_get_del_eq (k : string) (d : pydict) :
  dict_get k (dict_del k d) = None.
Proof.
  induction d as [|[k' v'] d IH]; simpl; [reflexivity|].
  destruct (String.eqb k k') eqn:E; simpl; [exact IH|].
  rewrite E. exact IH.
Qed.

Lemma dict_get_del_ne (k k' : string) (d : pydict) :
  k <> k' -> dict_get k (dict_del k' d) = dict_get k d.
Proof.
  intros Hne. induction d as [|[k0 v0] d IH]; simpl; [reflexivity|].
  destruct (String.eqb_spec k' k0) as [->|Hk0]; simpl.
  - apply String.eqb_neq in Hne. rewrite Hne. exact IH.
  - rewrite IH. reflexivity.
Qed.

Lemma dict_mem_set_eq (k : string) (v : pyval) (d : pydict) :
  dict_mem k (dict_set k v d) = true.
Proof. unfold dict_mem. rewrite dict_get_set_eq. reflexivity. Qed.

Lemma dict_mem_del_eq (k : string) (d : pydict) :
  dict_mem k (dict_del k d) = false.
Proof. unfold dict_mem. rewrite dict_get_del_eq. reflexivity. Qed.

Lemma dict_mem_get (k : string) (v : pyval) (d : pydict) :
  dict_get k d = Some v -> dict_mem k d = true.
Proof. unfold dict_mem. intros ->. reflexivity. Qed.

(** *** Removing a key does not lengthen the text of the dict *)

Lemma length_join_cons (p : Json.text) (ps : list Json.text) :
  List.length (Json.join (p :: ps))
  = List.length p
    + match ps with [] => 0 | _ :: _ => 2 + List.length (Json.join ps) end.
Proof.
  destruct ps as [|q ps].
  - simpl. lia.
  - rewrite join_cons, length_app. cbn [List.length]. lia.
Qed.

Lemma length_join_del (k : string) (d : pydict) :
  List.length (Json.join (map member (dict_del k d)))
  <= List.length (Json.join (map member d)).
Proof.
  induction d as [|[k' v'] d IH]; [apply Nat.le_refl|].
  cbn [dict_del]. destruct (String.eqb k k').
  - rewrite map_cons, length_join_cons.
    destruct (map member d); simpl in *; lia.
  - rewrite !map_cons, !length_join_cons.
    destruct d as [|kv d]; [simpl; lia|].
    destruct (dict_del k (kv :: d)) as [|kv1 d1] eqn:E.
    + cbn [map]. lia.
    + cbn [map] in *. lia.
Qed.

Lemma length_snapshot_del (k : string) (d : pydict) :
  List.length (snapshot (dict_del k d)) <= List.length (snapshot d).
Proof.
  rewrite !length_snapshot, !dumps_dict. cbn [List.length].
  rewrite !length_app. pose proof (length_join_del k d). lia.
Qed.

Lemma length_snapshot_empty (d : pydict) :
  List.length (snapshot []) <= List.length (snapshot d).
Proof.
  rewrite !length_snapshot, !dumps_dict. cbn [List.length].
  rewrite !length_app. cbn. lia.
Qed.

End Dict.

(* ================================================================== *)
(** * The operations of the store *)
(* ================================================================== *)

Section Operations.

Variable cfg : config.
Variable getsizeof : pyval -> Z.

(** [create], check by check. *)
Lemma create_eq (key value ttl : pyval) (now : Z) (self : DataStore) :
  create cfg getsizeof key value ttl now self
  = match contains key (data self) with
    | Raise e => (Raise e, self)
    | Ok true => (Raise (KeyAlreadyPresent key), self)
    | Ok false =>
        match is_valid cfg getsizeof key val_type_key with
        | Raise e => (Raise e, self)
        | Ok false =>
            (Raise (SizeConfigNotMet (MAX_KEY_LEN cfg) (MAX_VALUE_SIZE cfg)), self)
        | Ok true =>
            match is_valid cfg getsizeof value val_type_value with
            | Raise e => (Raise e, self)
            | Ok false =>
                (Raise (SizeConfigNotMet (MAX_KEY_LEN cfg) (MAX_VALUE_SIZE cfg)),
                 self)
            | Ok true =>
                match coerce_ttl ttl with
                | Raise e => (Raise e, self)
                | Ok ttl' =>
                    match key with
                    | PyStr k =>
                        flush (with_data (dict_set k (record value now ttl')
                                            (data self)) self)
                    | _ => (Raise PyTypeError, self)
                    end
                end
            end
        end
    end.
Proof.
  destruct self as [d m].
  cbv [create bind get_data lift raise ret setitem set_data with_data
       data mmap].
  destruct (contains key d) as [[|]|e]; try reflexivity.
  destruct (is_valid cfg getsizeof key val_type_key) as [[|]|e];
    try reflexivity.
  destruct (is_valid cfg getsizeof value val_type_value) as [[|]|e];
    try reflexivity.
  destruct (coerce_ttl ttl) as [ttl'|e]; try reflexivity.
  destruct key; reflexivity.
Qed.

(** [create] of a valid key and value that are not in the store: the record
    is put in the map, then the map is flushed. *)
Lemma create_valid (k : string) (d : pydict) (ttl ttl' : pyval) (now : Z)
    (self : DataStore) :
  dict_mem k (data self) = false ->
  (Z.of_nat (String.length k) <= MAX_KEY_LEN cfg)%Z ->
  (getsizeof (PyDict d) <= MAX_VALUE_SIZE cfg)%Z ->
  coerce_ttl ttl = Ok ttl' ->
  create cfg getsizeof (PyStr k) (PyDict d) ttl now self
  = flush (with_data (dict_set k (record (PyDict d) now ttl') (data self)) self).
Proof.
  intros Hk Hlen Hsize Httl. rewrite create_eq.
  cbn [contains is_valid]. rewrite Hk.
  apply Z.leb_le in Hlen. apply Z.leb_le in Hsize.
  rewrite Hlen, Hsize, Httl. reflexivity.
Qed.

(** After the ttl block of [create], the ttl is [None] or an [int]. *)
Lemma coerce_ttl_cases (ttl_given ttl_stored : pyval) :
  coerce_ttl ttl_given = Ok ttl_stored ->
  ttl_stored = PyNone \/ exists t, ttl_stored = PyInt t.
Proof.
  unfold coerce_ttl. intros H.
  destruct ttl_given; try (injection H as <-; left; reflexivity).
  all: destruct (py_int _) as [t|]; [|discriminate H].
  all: injection H as <-; right; exists t; reflexivity.
Qed.

(** [get] of a key of type [str], step by step. *)
Lemma get_eq (k : string) (now : Z) (self : DataStore) :
  get (PyStr k) now self
  = match dict_get k (data self) with
    | None => (Raise (KeyNotInDatastore (PyStr k)), self)
    | Some entry =>
        match unpack entry with
        | Raise e => (Raise e, self)
        | Ok args =>
            match DataStoreVO_init args with
            | Raise e => (Raise e, self)
            | Ok vo =>
                match is_expired vo now with
                | Raise e => (Raise e, self)
                | Ok false => (Ok (value vo), self)
                | Ok true =>
                    match flush (with_data (dict_del k (data self)) self) with
                    | (Ok _, self') => (Raise (TtlExpired (PyStr k)), self')
                    | (Raise e, self') => (Raise e, self')
                    end
                end
            end
        end
    end.
Proof.
  destruct self as [d m].
  unfold get, getitem, delitem.
  cbv [bind get_data lift raise ret set_data with_data contains dict_mem].
  cbn [data mmap].
  destruct (dict_get k d) as [entry|] eqn:E; cbn [negb data mmap]; rewrite ?E;
    [|reflexivity].
  destruct (unpack entry) as [args|e]; [|reflexivity].
  destruct (DataStoreVO_init args) as [vo|e]; [|reflexivity].
  destruct (is_expired vo now) as [[|]|e]; reflexivity.
Qed.

Lemma delete_eq (key : pyval) (self : DataStore) :
  delete key self
  = match contains key (data self) with
    | Raise e => (Raise e, self)
    | Ok false => (Ok tt, self)
    | Ok true =>
        match key with
        | PyStr k => flush (with_data (dict_del k (data self)) self)
        | _ => (Raise PyTypeError, self)
        end
    end.
Proof.
  destruct self as [d m].
  cbv [delete bind get_data lift raise ret delitem set_data with_data
       data mmap negb].
  destruct (contains key d) as [[|]|e]; try reflexivity.
  destruct key; reflexivity.
Qed.

Lemma delete_all_eq (self : DataStore) :
  delete_all self = flush (with_data [] self).
Proof. destruct self as [d m]. reflexivity. Qed.

(** *** [flush] after a change of the map *)

Lemma flush_with_data_fits (d : pydict) (self : DataStore) :
  List.length (snapshot d) <= List.length (Mmap.buf (mmap self)) ->
  flush (with_data d self)
  = (Ok tt,
     {| data := d;
        mmap := {| Mmap.buf :=
                     snapshot d
                     ++ repeat NUL (List.length (Mmap.buf (mmap self))
                                    - List.length (snapshot d));
                   Mmap.pos := List.length (snapshot d) |} |}).
Proof.
  intros Hfit. rewrite flush_eq. cbv zeta. cbn [with_data data mmap].
  apply Nat.leb_le in Hfit. rewrite Hfit. reflexivity.
Qed.

Lemma flush_with_data_overflow (d : pydict) (self : DataStore) :
  List.length (Mmap.buf (mmap self)) < List.length (snapshot d) ->
  flush (with_data d self)
  = (Raise MmapDataOutOfRange,
     {| data := d; mmap := Mmap.seek 0 (mmap self) |}).
Proof.
  intros Hover. rewrite flush_eq. cbv zeta. cbn [with_data data mmap].
  apply Nat.leb_gt in Hover. rewrite Hover. reflexivity.
Qed.

Lemma in_sync_flushed (d : pydict) (region : list byte) (p : nat) :
  List.length region = MAX_LOCAL_STORAGE_SIZE cfg ->
  List.length (snapshot d) <= List.length region ->
  in_sync cfg
    {| data := d;
       mmap := {| Mmap.buf :=
                    snapshot d
                    ++ repeat NUL (List.length region - List.length (snapshot d));
                  Mmap.pos := p |} |}.
Proof.
  intros Hcap Hfit. unfold in_sync. cbn [data mmap Mmap.buf].
  assert (Hlen : List.length
                   (snapshot d
                    ++ repeat NUL (List.length region
                                   - List.length (snapshot d)))
                 = List.length region)
    by (rewrite length_app, repeat_length; lia).
  rewrite Hlen. auto.
Qed.

(** A map whose snapshot fits the region is flushed, and the region mirrors
    it. *)
Lemma flush_room_in_sync (d : pydict) (self : DataStore) :
  Mmap.size (mmap self) = MAX_LOCAL_STORAGE_SIZE cfg ->
  List.length (snapshot d) <= Mmap.size (mmap self) ->
  fst (flush (with_data d self)) = Ok tt
  /\ data (snd (flush (with_data d self))) = d
  /\ in_sync cfg (snd (flush (with_data d self))).
Proof.
  unfold Mmap.size. intros Hcap Hroom.
  rewrite flush_with_data_fits by exact Hroom. cbn [fst snd data].
  split; [reflexivity|]. split; [reflexivity|].
  apply in_sync_flushed; assumption.
Qed.

(** On a store in sync, a map whose snapshot is not longer than the current
    one is flushed, and the store is in sync again. *)
Lemma flush_smaller_in_sync (d : pydict) (self : DataStore) :
  in_sync cfg self ->
  List.length (snapshot d) <= List.length (snapshot (data self)) ->
  fst (flush (with_data d self)) = Ok tt
  /\ data (snd (flush (with_data d self))) = d
  /\ in_sync cfg (snd (flush (with_data d self))).
Proof.
  intros (Hcap & Hfit & Hregion) Hle.
  rewrite flush_with_data_fits by lia. cbn [fst snd data].
  split; [reflexivity|]. split; [reflexivity|].
  apply in_sync_flushed; [exact Hcap | lia].
Qed.

(** *** What the operations leave in place *)

Lemma create_frame (key value ttl_given : pyval) (now : Z) (k : string)
    (self : DataStore) :
  key <> PyStr k ->
  dict_get k (data (snd (create cfg getsizeof key value ttl_given now self)))
  = dict_get k (data self).
Proof.
  intros Hne. rewrite create_eq.
  destruct (contains key (data self)) as [[|]|e]; try reflexivity.
  destruct (is_valid cfg getsizeof key val_type_key) as [[|]|e];
    try reflexivity.
  destruct (is_valid cfg getsizeof value val_type_value) as [[|]|e];
    try reflexivity.
  destruct (coerce_ttl ttl_given) as [ttl_stored|e]; try reflexivity.
  destruct key as [| | | k' | | |]; try reflexivity.
  rewrite flush_data. cbn [with_data data].
  apply dict_get_set_ne. intros ->. apply Hne. reflexivity.
Qed.

(** [get] with a key that is not a [str]: the key is not in the map, or it
    cannot be hashed. *)
Lemma get_not_str_cases (key : pyval) (now : Z) (self : DataStore) :
  (forall k, key <> PyStr k) ->
  get key now self
  = if hashable key then (Raise (KeyNotInDatastore key), self)
    else (Raise PyTypeError, self).
Proof.
  intros Hne. destruct self as [d m].
  destruct key as [| | | k | | l |]; try reflexivity.
  - exfalso. eapply Hne. reflexivity.
  - cbv [get bind get_data lift contains raise]. cbn [data].
    destruct (hashable (PyTuple l)); reflexivity.
Qed.

Lemma get_not_str (key : pyval) (now : Z) (self : DataStore) :
  (forall k, key <> PyStr k) -> snd (get key now self) = self.
Proof.
  intros Hne. rewrite (get_not_str_cases key now self Hne).
  destruct (hashable key); reflexivity.
Qed.

Lemma get_frame (key : pyval) (now : Z) (k : string) (self : DataStore) :
  key <> PyStr k ->
  dict_get k (data (snd (get key now self))) = dict_get k (data self).
Proof.
  intros Hne.
  destruct key as [| | | k' | | |];
    try (rewrite get_not_str by (intros; discriminate); reflexivity).
  rewrite get_eq.
  destruct (dict_get k' (data self)) as [entry|]; [|reflexivity].
  destruct (unpack entry) as [args|e]; [|reflexivity].
  destruct (DataStoreVO_init args) as [vo|e]; [|reflexivity].
  destruct (is_expired vo now) as [[|]|e]; try reflexivity.
  pose proof (flush_data (with_data (dict_del k' (data self)) self)) as Hd.
  destruct (flush (with_data (dict_del k' (data self)) self)) as [[u|e] self'];
    cbn [snd] in *; rewrite Hd; cbn [with_data data];
    apply dict_get_del_ne; intros ->; apply Hne; reflexivity.
Qed.

Lemma delete_frame (key : pyval) (k : string) (self : DataStore) :
  key <> PyStr k ->
  dict_get k (data (snd (delete key self))) = dict_get k (data self).
Proof.
  intros Hne. rewrite delete_eq.
  destruct (contains key (data self)) as [[|]|e]; try reflexivity.
  destruct key as [| | | k' | | |]; try reflexivity.
  rewrite flush_data. cbn [with_data data].
  apply dict_get_del_ne. intros ->. apply Hne. reflexivity.
Qed.

(** *** The exceptions of the built-ins *)

Lemma contains_raise (key : pyval) (d : pydict) (e : exn) :
  contains key d = Raise e -> e = PyTypeError.
Proof.
  destruct key; cbn [contains]; try destruct (hashable _); congruence.
Qed.

Lemma unpack_raise (v : pyval) (e : exn) :
  unpack v = Raise e -> e = PyTypeError.
Proof. destruct v; cbn; congruence. Qed.

Lemma DataStoreVO_init_raise (args : list pyval) (e : exn) :
  DataStoreVO_init args = Raise e -> e = PyTypeError.
Proof. destruct args as [|? [|? [|? ?]]]; cbn; congruence. Qed.

Lemma is_expired_raise (vo : DataStoreVO) (now : Z) (e : exn) :
  is_expired vo now = Raise e -> e = PyTypeError.
Proof.
  unfold is_expired.
  destruct (ttl vo); try congruence;
    destruct (as_int (created_at vo)); try congruence;
    try (destruct (as_int _); congruence).
Qed.

(** *** Keys that are not of type [str] *)

Lemma get_not_str_eq (key : pyval) (now : Z) (self : DataStore) :
  (forall k, key <> PyStr k) ->
  get key now self = (Raise (KeyNotInDatastore key), self)
  \/ get key now self = (Raise PyTypeError, self).
Proof.
  intros Hne. rewrite (get_not_str_cases key now self Hne).
  destruct (hashable key); [left | right]; reflexivity.
Qed.

(** *** [create] when the region is too small *)

(** [create] of a valid key and value that are not in the store, when the
    snapshot with the new record is longer than the region: the write to the
    region raises, after the record was put in the map. *)
Lemma create_overflow (k : string) (d : pydict) (ttl_given ttl_stored : pyval)
    (now : Z) (self : DataStore) :
  dict_mem k (data self) = false ->
  (Z.of_nat (String.length k) <= MAX_KEY_LEN cfg)%Z ->
  (getsizeof (PyDict d) <= MAX_VALUE_SIZE cfg)%Z ->
  coerce_ttl ttl_given = Ok ttl_stored ->
  List.length (Mmap.buf (mmap self))
  < List.length (snapshot (dict_set k (record (PyDict d) now ttl_stored)
                             (data self))) ->
  create cfg getsizeof (PyStr k) (PyDict d) ttl_given now self
  = (Raise MmapDataOutOfRange,
     {| data := dict_set k (record (PyDict d) now ttl_stored) (data self);
        mmap := Mmap.seek 0 (mmap self) |}).
Proof.
  intros Hk Hlen Hsize Httl Hover.
  rewrite (create_valid k d ttl_given ttl_stored now self Hk Hlen Hsize Httl).
  apply flush_with_data_overflow, Hover.
Qed.

(** *** The shape of a store *)

Lemma read_data_wf (m : Mmap.t) (d : pydict) :
  _read_data m = Ok d -> wf_pyval (PyDict d).
Proof.
  unfold _read_data. intros H.
  destruct (decode_ascii (Mmap.read_all m)) as [decoded|e]; [|discriminate H].
  destruct (Json.loads (rstrip_nul decoded)) as [v|] eqn:E; [|discriminate H].
  apply loads_wf in E.
  destruct v; try discriminate H. injection H as <-. exact E.
Qed.

Lemma DataStore_init_shaped (file : list byte) (self : DataStore) :
  DataStore_init cfg file = Ok self -> well_shaped cfg self.
Proof.
  unfold DataStore_init, _get_mmaped_fd, Mmap.mmap. intros H.
  destruct file as [|b file]; [discriminate H|].
  destruct (Mmap.resize _ _) as [m|e] eqn:Em; [|discriminate H].
  destruct (_read_data m) as [d|e] eqn:E; [|discriminate H].
  injection H as <-. split; cbn [data mmap].
  - apply (read_data_wf _ _ E).
  - apply (resize_size _ _ _ Em).
Qed.

Lemma flush_with_data_shaped (d : pydict) (self : DataStore) :
  wf_pyval (PyDict d) ->
  Mmap.size (mmap self) = MAX_LOCAL_STORAGE_SIZE cfg ->
  well_shaped cfg (snd (flush (with_data d self))).
Proof.
  unfold well_shaped, Mmap.size. intros Hwf Hcap.
  rewrite flush_eq. cbv zeta. cbn [with_data data mmap].
  destruct (List.length (snapshot d) <=? List.length (Mmap.buf (mmap self)))
    eqn:Hfit; cbn [snd data mmap Mmap.buf Mmap.seek].
  - apply Nat.leb_le in Hfit. split; [exact Hwf|].
    rewrite length_app, repeat_length. lia.
  - split; assumption.
Qed.

(** Every operation keeps the shape of the store; [create] is given a value
    whose dicts have distinct keys, as every Python value has. *)
Lemma operations_keep_shape (self : DataStore) :
  well_shaped cfg self ->
  (forall key value ttl_given now,
      wf_pyval value ->
      well_shaped cfg (snd (create cfg getsizeof key value ttl_given now self)))
  /\ (forall key now, well_shaped cfg (snd (get key now self)))
  /\ (forall key, well_shaped cfg (snd (delete key self)))
  /\ well_shaped cfg (snd (delete_all self))
  /\ well_shaped cfg (snd (flush self)).
Proof.
  intros Hshape. pose proof Hshape as [Hwf Hcap].
  split; [|split; [|split; [|split]]].
  - intros key value ttl_given now Hvalue. rewrite create_eq.
    destruct (contains key (data self)) as [[|]|e]; try exact Hshape.
    destruct (is_valid cfg getsizeof key val_type_key) as [[|]|e];
      try exact Hshape.
    destruct (is_valid cfg getsizeof value val_type_value) as [[|]|e];
      try exact Hshape.
    destruct (coerce_ttl ttl_given) as [ttl_stored|e] eqn:Ettl;
      try exact Hshape.
    destruct key as [| | | k | | |]; try exact Hshape.
    apply flush_with_data_shaped; [|exact Hcap].
    apply wf_dict_set; [exact Hwf|].
    apply wf_list_iff. constructor; [exact Hvalue|].
    constructor; [exact I|]. constructor; [|constructor].
    destruct (coerce_ttl_cases _ _ Ettl) as [-> | [t ->]]; exact I.
  - intros key now.
    destruct key as [| | | k | | |];
      try (rewrite get_not_str by (intros; discriminate); exact Hshape).
    rewrite get_eq.
    destruct (dict_get k (data self)) as [entry|]; [|exact Hshape].
    destruct (unpack entry) as [args|e]; [|exact Hshape].
    destruct (DataStoreVO_init args) as [vo|e]; [|exact Hshape].
    destruct (is_expired vo now) as [[|]|e]; try exact Hshape.
    pose proof (flush_with_data_shaped (dict_del k (data self)) self
                  (wf_dict_del k _ Hwf) Hcap) as Hflushed.
    destruct (flush (with_data (dict_del k (data self)) self)) as [[u|e] st];
      exact Hflushed.
  - intros key. rewrite delete_eq.
    destruct (contains key (data self)) as [[|]|e]; try exact Hshape.
    destruct key as [| | | k | | |]; try exact Hshape.
    apply flush_with_data_shaped; [apply wf_dict_del, Hwf | exact Hcap].
  - rewrite delete_all_eq.
    apply flush_with_data_shaped; [split; [constructor | exact I] | exact Hcap].
  - replace self with (with_data (data self) self) at 1
      by (destruct self; reflexivity).
    apply flush_with_data_shaped; assumption.
Qed.

(** *** A new file *)

(** On a new file, [get_instance] returns a store with an empty map whose
    region mirrors it, for every capacity of two bytes or more. *)
Lemma get_instance_new_file :
  2 <= MAX_LOCAL_STORAGE_SIZE cfg ->
  exists self,
    get_instance cfg [] = Ok self /\ data self = [] /\ in_sync cfg self.
Proof.
  intros Hcap.
  unfold get_instance, DataStore_init, _get_mmaped_fd, Mmap.mmap.
  cbn [map Json.chars list_ascii_of_string].
  change [byte_of_ascii "{"; byte_of_ascii "}"]
    with (snapshot [] ++ repeat NUL 0).
  rewrite resize_snapshot_padded by exact Hcap.
  rewrite read_data_snapshot by (split; [constructor | exact I]).
  eexists. split; [reflexivity|]. split; [reflexivity|].
  unfold in_sync. cbn [data mmap Mmap.buf listify_dict map].
  rewrite length_app, repeat_length.
  change (List.length (snapshot [])) with 2.
  split; [lia|]. split; [lia|].
  do 2 f_equal. lia.
Qed.

End Operations.

(* ================================================================== *)
(** * A small configuration to run the engine on *)
(* ================================================================== *)

Example example_store_fresh :
  get_instance example_config [] = Ok example_store.
Proof. reflexivity. Qed.

(* ================================================================== *)
(** * Properties of the engine *)
(* ================================================================== *)

Section Properties.

Variable cfg : config.
Variable getsizeof : pyval -> Z.

(** C6. [is_expired] answers [False] when the ttl is absent, and otherwise
    [True] exactly when [now_ms - created_at_ms > ttl_seconds * 1000] (a
    strict inequality).  It is a function of the stored fields and of the
    current time alone: it neither reads nor changes a store. *)
Theorem is_expired_spec (v c : pyval) (created_at_ms ttl_seconds now_ms : Z) :
  is_expired {| value := v; ttl := PyNone; created_at := c |} now_ms = Ok false
  /\ is_expired {| value := v; ttl := PyInt ttl_seconds;
                   created_at := PyInt created_at_ms |} now_ms
     = Ok (now_ms - created_at_ms >? ttl_seconds * 1000)%Z
  /\ (is_expired {| value := v; ttl := PyInt ttl_seconds;
                    created_at := PyInt created_at_ms |} now_ms = Ok true
      <-> (now_ms - created_at_ms > ttl_seconds * 1000)%Z).
Proof.
  split; [reflexivity|]. split; [reflexivity|].
  cbn [is_expired ttl created_at as_int].
  split.
  - intros H. injection H as H. apply Z.gtb_lt in H. lia.
  - intros H. f_equal. apply Z.gtb_lt. lia.
Qed.

(** C1. On a store that does not contain the key, [create] of a valid key
    (a [str] of at most [MAX_KEY_LEN] characters), a valid value (a dict
    within [MAX_VALUE_SIZE]) and a ttl that is absent or coerces to an
    integer, followed by [get] of the key before the ttl has elapsed, returns
    the value that was passed to [create]. *)
Theorem create_then_get (self : DataStore) (k : string) (d : pydict)
    (ttl_given ttl_stored : pyval) (now now' : Z) :
  dict_mem k (data self) = false ->
  (Z.of_nat (String.length k) <= MAX_KEY_LEN cfg)%Z ->
  (getsizeof (PyDict d) <= MAX_VALUE_SIZE cfg)%Z ->
  coerce_ttl ttl_given = Ok ttl_stored ->
  (forall t, ttl_stored = PyInt t -> (now' - now <= t * 1000)%Z) ->
  let self1 :=
    snd (create cfg getsizeof (PyStr k) (PyDict d) ttl_given now self) in
  get (PyStr k) now' self1 = (Ok (PyDict d), self1).
Proof.
  intros Hk Hlen Hsize Httl Hlive self1. subst self1.
  rewrite (create_valid cfg getsizeof k d ttl_given ttl_stored now self
             Hk Hlen Hsize Httl).
  rewrite get_eq, flush_data. cbn [with_data data].
  rewrite dict_get_set_eq.
  cbn [record unpack DataStoreVO_init].
  assert (Hexp : is_expired {| value := PyDict d; ttl := ttl_stored;
                               created_at := PyInt now |} now' = Ok false).
  { destruct (coerce_ttl_cases _ _ Httl) as [-> | [t ->]]; [reflexivity|].
    cbn [is_expired ttl created_at as_int]. f_equal.
    specialize (Hlive t eq_refl).
    destruct (Z.gtb_spec (now' - now) (t * 1000)); [lia | reflexivity]. }
  rewrite Hexp. reflexivity.
Qed.

(** C3. [create] with a key that is already present fails with the
    duplicate-key error and leaves the store (the map and the region) as it
    was; so a later [get] of the key answers what it answered before the
    failed [create]: the value of the first [create]. *)
Theorem create_duplicate_key (self : DataStore) (k : string)
    (value ttl_given : pyval) (now : Z) :
  dict_mem k (data self) = true ->
  create cfg getsizeof (PyStr k) value ttl_given now self
  = (Raise (KeyAlreadyPresent (PyStr k)), self)
  /\ forall now',
       get (PyStr k) now'
         (snd (create cfg getsizeof (PyStr k) value ttl_given now self))
       = get (PyStr k) now' self.
Proof.
  intros Hk.
  assert (H : create cfg getsizeof (PyStr k) value ttl_given now self
              = (Raise (KeyAlreadyPresent (PyStr k)), self)).
  { rewrite create_eq. cbn [contains]. rewrite Hk. reflexivity. }
  split; [exact H|]. intros now'. rewrite H. reflexivity.
Qed.

(** C10. The duplicate-key check of [create] comes before the validation of
    the key and of the value: with the key present the result is the
    duplicate-key error whatever [is_valid] would answer or raise, and
    [is_valid] decides the result only with the key absent, first on the key
    and then on the value. *)
Theorem duplicate_check_precedes_validation (self : DataStore)
    (key value ttl_given : pyval) (now : Z) (present : bool) :
  contains key (data self) = Ok present ->
  create cfg getsizeof key value ttl_given now self
  = if present then (Raise (KeyAlreadyPresent key), self)
    else
      match is_valid cfg getsizeof key val_type_key with
      | Raise e => (Raise e, self)
      | Ok false =>
          (Raise (SizeConfigNotMet (MAX_KEY_LEN cfg) (MAX_VALUE_SIZE cfg)), self)
      | Ok true =>
          match is_valid cfg getsizeof value val_type_value with
          | Raise e => (Raise e, self)
          | Ok false =>
              (Raise (SizeConfigNotMet (MAX_KEY_LEN cfg) (MAX_VALUE_SIZE cfg)),
               self)
          | Ok true => create cfg getsizeof key value ttl_given now self
          end
      end.
Proof.
  intros Hc. rewrite create_eq, Hc.
  destruct present; [reflexivity|].
  destruct (is_valid cfg getsizeof key val_type_key) as [[|]|e];
    try reflexivity.
  destruct (is_valid cfg getsizeof value val_type_value) as [[|]|e];
    reflexivity.
Qed.

(** C7. [delete] of a key that is not in the map returns without an error
    and leaves the map and the region as they were. *)
Theorem delete_missing_key (self : DataStore) (key : pyval) :
  contains key (data self) = Ok false ->
  delete key self = (Ok tt, self).
Proof.
  intros Hc. rewrite delete_eq, Hc. reflexivity.
Qed.

(** C8. Two calls of [flush] in a row, with no change of the map between
    them, leave the same bytes in the region: the second call ends as the
    first and writes what the first wrote. *)
Theorem flush_twice (self : DataStore) :
  fst (flush (snd (flush self))) = fst (flush self)
  /\ Mmap.buf (mmap (snd (flush (snd (flush self)))))
     = Mmap.buf (mmap (snd (flush self))).
Proof.
  rewrite (flush_eq self). cbv zeta.
  destruct (List.length (snapshot (data self))
            <=? List.length (Mmap.buf (mmap self))) eqn:Hfit;
    cbn [snd fst]; rewrite flush_eq; cbv zeta; cbn [data mmap Mmap.buf Mmap.seek].
  - assert (Hlen : List.length
                     (snapshot (data self)
                      ++ repeat NUL (List.length (Mmap.buf (mmap self))
                                     - List.length (snapshot (data self))))
                   = List.length (Mmap.buf (mmap self))).
    { apply Nat.leb_le in Hfit. rewrite length_app, repeat_length. lia. }
    rewrite Hlen, Hfit. cbn [snd fst mmap Mmap.buf]. split; reflexivity.
  - rewrite Hfit. cbn [snd fst mmap Mmap.buf Mmap.seek]. split; reflexivity.
Qed.

(** C9, amended.  On a store that holds neither key, with a valid value:
    [create] with a key of exactly [MAX_KEY_LEN] characters passes the
    validation and puts the record in the map; it succeeds when the text of
    the map with the new record fits the region, and fails in the write to
    the region when it does not.  [create] with a key of [MAX_KEY_LEN + 1]
    characters fails with the size error and changes nothing.  The size error
    carries the two bounds, [MAX_KEY_LEN] and [MAX_VALUE_SIZE], and not the
    one that was exceeded: it is the error that [create] raises, with the key
    of [MAX_KEY_LEN] characters, for a value above [MAX_VALUE_SIZE]. *)
Theorem key_length_boundary (self : DataStore) (k_max k_over : string)
    (d : pydict) (ttl_given ttl_stored : pyval) (now : Z) :
  Z.of_nat (String.length k_max) = MAX_KEY_LEN cfg ->
  Z.of_nat (String.length k_over) = (MAX_KEY_LEN cfg + 1)%Z ->
  (getsizeof (PyDict d) <= MAX_VALUE_SIZE cfg)%Z ->
  coerce_ttl ttl_given = Ok ttl_stored ->
  dict_mem k_max (data self) = false ->
  dict_mem k_over (data self) = false ->
  (fst (create cfg getsizeof (PyStr k_max) (PyDict d) ttl_given now self)
   = (if List.length
           (snapshot (dict_set k_max (record (PyDict d) now ttl_stored)
                        (data self)))
         <=? Mmap.size (mmap self)
      then Ok tt
      else Raise MmapDataOutOfRange)
   /\ dict_get k_max
        (data (snd (create cfg getsizeof (PyStr k_max) (PyDict d) ttl_given
                      now self)))
      = Some (record (PyDict d) now ttl_stored))
  /\ create cfg getsizeof (PyStr k_over) (PyDict d) ttl_given now self
     = (Raise (SizeConfigNotMet (MAX_KEY_LEN cfg) (MAX_VALUE_SIZE cfg)), self)
  /\ (forall d_large,
         (MAX_VALUE_SIZE cfg < getsizeof (PyDict d_large))%Z ->
         create cfg getsizeof (PyStr k_max) (PyDict d_large) ttl_given now self
         = create cfg getsizeof (PyStr k_over) (PyDict d) ttl_given now self).
Proof.
  intros Hmax Hover Hsize Httl Hk_max Hk_over.
  assert (Hlong : (Z.of_nat (String.length k_over) <=? MAX_KEY_LEN cfg)%Z
                  = false) by (apply Z.leb_gt; lia).
  assert (Hfail : create cfg getsizeof (PyStr k_over) (PyDict d) ttl_given now
                    self
                  = (Raise (SizeConfigNotMet (MAX_KEY_LEN cfg)
                              (MAX_VALUE_SIZE cfg)), self)).
  { rewrite create_eq. cbn [contains is_valid]. rewrite Hk_over, Hlong.
    reflexivity. }
  split; [|split].
  - rewrite (create_valid cfg getsizeof k_max d ttl_given ttl_stored now self
               Hk_max ltac:(lia) Hsize Httl).
    rewrite flush_data. cbn [with_data data]. rewrite dict_get_set_eq.
    split; [|reflexivity].
    rewrite flush_eq. cbv zeta. cbn [with_data data mmap]. unfold Mmap.size.
    destruct (_ <=? _); reflexivity.
  - exact Hfail.
  - intros d_large Hlarge. rewrite Hfail, create_eq.
    cbn [contains is_valid]. rewrite Hk_max.
    assert (Hfits : (Z.of_nat (String.length k_max) <=? MAX_KEY_LEN cfg)%Z
                    = true) by (apply Z.leb_le; lia).
    assert (Hbig : (getsizeof (PyDict d_large) <=? MAX_VALUE_SIZE cfg)%Z
                   = false) by (apply Z.leb_gt; lia).
    rewrite Hfits, Hbig. reflexivity.
Qed.

(** C4, amended.  [get] of a key whose record has a ttl with
    [now - created_at > ttl * 1000] removes the key from the map, and every
    later [get] of the key fails with the not-found error.  When the map
    without the key fits the region, as on every store whose region mirrors
    its map, [get] flushes it and fails with the expiry error, and a region
    of the configured capacity then mirrors the new map; when it does not
    fit, [get] fails in the write to the region instead.  Expiry is looked at
    by that [get] alone: [create], [delete] and [get] with other keys and
    [flush] leave the record in the map, whatever the time, and [create] with
    the same key still meets a duplicate. *)
Theorem get_expired (self : DataStore) (k : string) (v : pyval)
    (created_at_ms ttl_seconds now : Z) :
  dict_get k (data self) = Some (record v created_at_ms (PyInt ttl_seconds)) ->
  (now - created_at_ms > ttl_seconds * 1000)%Z ->
  let self' := snd (get (PyStr k) now self) in
  let room :=
    List.length (snapshot (dict_del k (data self))) <=? Mmap.size (mmap self) in
  (data self' = dict_del k (data self)
   /\ (forall now',
          get (PyStr k) now' self' = (Raise (KeyNotInDatastore (PyStr k)), self'))
   /\ fst (get (PyStr k) now self)
      = (if room then Raise (TtlExpired (PyStr k)) else Raise MmapDataOutOfRange)
   /\ (in_sync cfg self -> room = true)
   /\ (room = true ->
       Mmap.size (mmap self) = MAX_LOCAL_STORAGE_SIZE cfg ->
       in_sync cfg self'))
  /\ ((forall key value ttl_given now', key <> PyStr k ->
         dict_get k
           (data (snd (create cfg getsizeof key value ttl_given now' self)))
         = Some (record v created_at_ms (PyInt ttl_seconds)))
      /\ (forall key now', key <> PyStr k ->
            dict_get k (data (snd (get key now' self)))
            = Some (record v created_at_ms (PyInt ttl_seconds)))
      /\ (forall key, key <> PyStr k ->
            dict_get k (data (snd (delete key self)))
            = Some (record v created_at_ms (PyInt ttl_seconds)))
      /\ dict_get k (data (snd (flush self)))
         = Some (record v created_at_ms (PyInt ttl_seconds))
      /\ (forall value ttl_given now',
            create cfg getsizeof (PyStr k) value ttl_given now' self
            = (Raise (KeyAlreadyPresent (PyStr k)), self))).
Proof.
  intros Hentry Hold self' room.
  assert (Hget : get (PyStr k) now self
                 = match flush (with_data (dict_del k (data self)) self) with
                   | (Ok _, st) => (Raise (TtlExpired (PyStr k)), st)
                   | (Raise e, st) => (Raise e, st)
                   end).
  { rewrite get_eq, Hentry.
    cbn [record unpack DataStoreVO_init is_expired ttl created_at as_int].
    assert (Hgt : (now - created_at_ms >? ttl_seconds * 1000)%Z = true)
      by (apply Z.gtb_lt; lia).
    rewrite Hgt. reflexivity. }
  assert (Hdata : data self' = dict_del k (data self)).
  { subst self'. rewrite Hget.
    pose proof (flush_data (with_data (dict_del k (data self)) self)) as Hd.
    destruct (flush (with_data (dict_del k (data self)) self)) as [[u|e] st];
      exact Hd. }
  split; [split; [|split; [|split; [|split]]]
         | split; [|split; [|split; [|split]]]].
  - exact Hdata.
  - intros now'. rewrite get_eq, Hdata, dict_get_del_eq. reflexivity.
  - rewrite Hget, flush_eq. cbv zeta. cbn [with_data data mmap].
    subst room. unfold Mmap.size.
    destruct (_ <=? _); reflexivity.
  - intros (Hcap & Hfit & Hregion). subst room. unfold Mmap.size.
    apply Nat.leb_le.
    pose proof (length_snapshot_del k (data self)). lia.
  - intros Hroom Hcap. subst room. apply Nat.leb_le in Hroom.
    destruct (flush_room_in_sync cfg (dict_del k (data self)) self Hcap Hroom)
      as (Hok & _ & Hsync').
    subst self'. rewrite Hget.
    destruct (flush (with_data (dict_del k (data self)) self)) as [r st].
    cbn [fst snd] in *. subst r. exact Hsync'.
  - intros key value ttl_given now' Hne.
    rewrite (create_frame cfg getsizeof) by exact Hne. exact Hentry.
  - intros key now' Hne. rewrite get_frame by exact Hne. exact Hentry.
  - intros key Hne. rewrite delete_frame by exact Hne. exact Hentry.
  - rewrite flush_data. exact Hentry.
  - intros value ttl_given now'. rewrite create_eq. cbn [contains].
    rewrite (dict_mem_get k _ _ Hentry). reflexivity.
Qed.

(** C5, amended.  The map that [flush] has written is read back with a
    list in place of every tuple: [_read_data] on the region (the whole
    region, decoded, without its trailing null characters, parsed as JSON)
    returns that map, and so does the opening of a store on the bytes of the
    region.  The map read back is the map that was flushed exactly when the
    map holds no tuple, that is, when it is made of [None], [bool], [int],
    [str], [list] and [dict] with [str] keys.  The store has the shape of
    every store that was opened ([well_shaped]).  The clock is not read on
    the way, so this holds whatever the ttl of the records. *)
Theorem flush_then_reopen (self self' : DataStore) :
  well_shaped cfg self ->
  flush self = (Ok tt, self') ->
  _read_data (mmap self') = Ok (listify_dict (data self))
  /\ DataStore_init cfg (Mmap.read_all (mmap self'))
     = Ok {| data := listify_dict (data self);
             mmap := {| Mmap.buf := Mmap.buf (mmap self'); Mmap.pos := 0 |} |}
  /\ (listify_dict (data self) = data self
      <-> json_native (PyDict (data self)) = true).
Proof.
  intros [Hwf Hcap] Hflush.
  rewrite flush_eq in Hflush. cbv zeta in Hflush.
  destruct (List.length (snapshot (data self))
            <=? List.length (Mmap.buf (mmap self))) eqn:Hfit;
    [|discriminate Hflush].
  apply Nat.leb_le in Hfit.
  apply (f_equal snd) in Hflush. cbn [snd] in Hflush. subst self'.
  cbn [mmap Mmap.buf Mmap.read_all].
  split; [apply read_data_snapshot, Hwf|].
  split; [|apply listify_dict_fixed].
  unfold Mmap.size in Hcap.
  unfold DataStore_init, _get_mmaped_fd.
  rewrite mmap_nonempty by (unfold snapshot; rewrite dumps_dict; discriminate).
  rewrite resize_snapshot_padded by lia.
  rewrite <- Hcap, (read_data_snapshot _ _ 0 Hwf). reflexivity.
Qed.

(** C2, amended.  On a store whose region mirrors its map (the region has
    the configured capacity and holds the JSON text of the map from offset 0,
    followed by null bytes only): [get], [delete], [delete_all] and [flush]
    never fail in the write to the region and leave the region mirroring the
    map; [create] does so whenever it returns, and when it fails with another
    error than that of the write to the region it has changed nothing. *)
Theorem operations_keep_sync (self : DataStore) :
  in_sync cfg self ->
  (forall key now,
      fst (get key now self) <> Raise MmapDataOutOfRange
      /\ in_sync cfg (snd (get key now self)))
  /\ (forall key,
         fst (delete key self) <> Raise MmapDataOutOfRange
         /\ in_sync cfg (snd (delete key self)))
  /\ (fst (delete_all self) = Ok tt /\ in_sync cfg (snd (delete_all self)))
  /\ (fst (flush self) = Ok tt /\ in_sync cfg (snd (flush self)))
  /\ (forall key value ttl_given now,
         (fst (create cfg getsizeof key value ttl_given now self) = Ok tt ->
          in_sync cfg (snd (create cfg getsizeof key value ttl_given now self)))
         /\ (forall e,
                fst (create cfg getsizeof key value ttl_given now self) = Raise e ->
                e <> MmapDataOutOfRange ->
                snd (create cfg getsizeof key value ttl_given now self) = self)).
Proof.
  intros Hsync.
  split; [|split; [|split; [|split]]].
  - intros key now.
    destruct key as [| | | k | | |];
      try (match goal with
           | |- context [get ?key now self] =>
               destruct (get_not_str_eq key now self
                           ltac:(intros; discriminate)) as [-> | ->]
           end; still_in_sync).
    rewrite get_eq.
    destruct (dict_get k (data self)) as [entry|];
      [|still_in_sync].
    destruct (unpack entry) as [args|e] eqn:E;
      [|apply unpack_raise in E; subst e; still_in_sync].
    clear E. destruct (DataStoreVO_init args) as [vo|e] eqn:E;
      [|apply DataStoreVO_init_raise in E; subst e; still_in_sync].
    clear E. destruct (is_expired vo now) as [[|]|e] eqn:E;
      [| still_in_sync
       | apply is_expired_raise in E; subst e; still_in_sync].
    destruct (flush_smaller_in_sync cfg (dict_del k (data self)) self Hsync
                (length_snapshot_del k (data self))) as (Hok & _ & Hsync').
    destruct (flush (with_data (dict_del k (data self)) self)) as [r st].
    cbn [fst snd] in *. subst r. split; [discriminate | exact Hsync'].
  - intros key. rewrite delete_eq.
    destruct (contains key (data self)) as [[|]|e] eqn:E;
      [| still_in_sync
       | apply contains_raise in E; subst e; still_in_sync].
    destruct key as [| | | k | | |];
      try (still_in_sync).
    destruct (flush_smaller_in_sync cfg (dict_del k (data self)) self Hsync
                (length_snapshot_del k (data self))) as (Hok & _ & Hsync').
    rewrite Hok. split; [discriminate | exact Hsync'].
  - rewrite delete_all_eq.
    destruct (flush_smaller_in_sync cfg [] self Hsync
                (length_snapshot_empty (data self))) as (Hok & _ & Hsync').
    split; assumption.
  - replace self with (with_data (data self) self) at 1 3
      by (destruct self; reflexivity).
    destruct (flush_smaller_in_sync cfg (data self) self Hsync
                (Nat.le_refl _)) as (Hok & _ & Hsync').
    split; assumption.
  - intros key value ttl_given now. rewrite create_eq.
    destruct (contains key (data self)) as [[|]|e0];
      try ((cbn [fst snd]; split; [discriminate | reflexivity])).
    destruct (is_valid cfg getsizeof key val_type_key) as [[|]|e0];
      try ((cbn [fst snd]; split; [discriminate | reflexivity])).
    destruct (is_valid cfg getsizeof value val_type_value) as [[|]|e0];
      try ((cbn [fst snd]; split; [discriminate | reflexivity])).
    destruct (coerce_ttl ttl_given) as [ttl_stored|e0];
      try ((cbn [fst snd]; split; [discriminate | reflexivity])).
    destruct key as [| | | k | | |];
      try ((cbn [fst snd]; split; [discriminate | reflexivity])).
    destruct Hsync as (Hcap & Hfit & Hregion).
    rewrite flush_eq. cbv zeta. cbn [with_data data mmap].
    destruct (List.length
                (snapshot (dict_set k (record value now ttl_stored) (data self)))
              <=? List.length (Mmap.buf (mmap self))) eqn:Hroom;
      cbn [fst snd].
    + split; [|intros e He; discriminate He].
      intros _. apply in_sync_flushed; [exact Hcap|].
      apply Nat.leb_le, Hroom.
    + split; [intros He; discriminate He|].
      intros e He Hne. injection He as <-. contradiction Hne. reflexivity.
Qed.

End Properties.

(* ================================================================== *)
(** * The properties at work on the example store *)
(* ================================================================== *)

Lemma create_then_get_witness :
  get (PyStr "a") 5000
    (snd (create example_config example_getsizeof (PyStr "a")
            (PyDict [("x"%string, PyInt 1)]) (PyInt 10) 1000 example_store))
  = (Ok (PyDict [("x"%string, PyInt 1)]),
     snd (create example_config example_getsizeof (PyStr "a")
            (PyDict [("x"%string, PyInt 1)]) (PyInt 10) 1000 example_store)).
Proof.
  apply (create_then_get example_config example_getsizeof example_store
           "a"%string [("x"%string, PyInt 1)] (PyInt 10) (PyInt 10)
           1000%Z 5000%Z).
  - reflexivity.
  - vm_compute. discriminate.
  - vm_compute. discriminate.
  - reflexivity.
  - intros t Ht. injection Ht as <-. vm_compute. discriminate.
Defined.

Lemma create_duplicate_key_witness :
  create example_config example_getsizeof (PyStr "a")
    (PyDict [("x"%string, PyInt 2)]) PyNone 2000 example_store_a
  = (Raise (KeyAlreadyPresent (PyStr "a")), example_store_a)
  /\ get (PyStr "a") 3000
       (snd (create example_config example_getsizeof (PyStr "a")
               (PyDict [("x"%string, PyInt 2)]) PyNone 2000 example_store_a))
     = get (PyStr "a") 3000 example_store_a.
Proof.
  destruct (create_duplicate_key example_config example_getsizeof
              example_store_a "a"%string (PyDict [("x"%string, PyInt 2)])
              PyNone 2000%Z) as [H1 H2].
  - reflexivity.
  - split; [exact H1 | exact (H2 3000%Z)].
Defined.

(** The scenario of the second [create]: the first value is still there. *)
Example scenario_duplicate_key :
  get (PyStr "a") 3000
    (snd (create example_config example_getsizeof (PyStr "a")
            (PyDict [("x"%string, PyInt 2)]) PyNone 2000 example_store_a))
  = (Ok (PyDict [("x"%string, PyInt 1)]), example_store_a).
Proof. reflexivity. Qed.

(** The key is present and the value is not a dict: [is_valid] would raise,
    and the duplicate-key error comes first. *)
Lemma duplicate_check_precedes_validation_witness :
  create example_config example_getsizeof (PyStr "a") (PyInt 3) (PyStr "soon")
    2000 example_store_a
  = (Raise (KeyAlreadyPresent (PyStr "a")), example_store_a).
Proof.
  exact (duplicate_check_precedes_validation example_config example_getsizeof
           example_store_a (PyStr "a") (PyInt 3) (PyStr "soon") 2000 true
           eq_refl).
Defined.

Lemma delete_missing_key_witness :
  delete (PyStr "b") example_store_a = (Ok tt, example_store_a).
Proof.
  apply (delete_missing_key example_store_a (PyStr "b")). reflexivity.
Defined.

Lemma key_length_boundary_witness :
  (fst (create example_config example_getsizeof (PyStr key_of_32) (PyDict [])
          PyNone 1000 example_store) = Ok tt
   /\ dict_get key_of_32
        (data (snd (create example_config example_getsizeof (PyStr key_of_32)
                      (PyDict []) PyNone 1000 example_store)))
      = Some (record (PyDict []) 1000 PyNone))
  /\ create example_config example_getsizeof (PyStr key_of_33) (PyDict [])
       PyNone 1000 example_store
     = (Raise (SizeConfigNotMet 32 16384), example_store).
Proof.
  destruct (key_length_boundary example_config example_getsizeof example_store
              key_of_32 key_of_33 [] PyNone PyNone 1000%Z)
    as (Hmax & Hover & _).
  - reflexivity.
  - reflexivity.
  - vm_compute. discriminate.
  - reflexivity.
  - reflexivity.
  - reflexivity.
  - split; [exact Hmax | exact Hover].
Defined.

(** C9 as stated fails.  On the fresh store, [create] with a key of exactly
    [MAX_KEY_LEN] characters that is not in the map and a valid value does not
    succeed when the record does not fit the 64 bytes of the region: it
    raises in the write to the region. *)
Lemma key_length_boundary_out_of_room :
  Z.of_nat (String.length key_of_32) = MAX_KEY_LEN example_config
  /\ contains (PyStr key_of_32) (data example_store) = Ok false
  /\ is_valid example_config example_getsizeof (PyStr key_of_32) val_type_key
     = Ok true
  /\ is_valid example_config example_getsizeof example_big_value val_type_value
     = Ok true
  /\ fst (create example_config example_getsizeof (PyStr key_of_32)
            example_big_value PyNone 1000 example_store)
     = Raise MmapDataOutOfRange.
Proof. repeat (split; [reflexivity|]). reflexivity. Qed.

Lemma example_store_in_sync : in_sync example_config example_store.
Proof.
  unfold in_sync. split; [reflexivity|]. split; [|reflexivity].
  vm_compute. lia.
Qed.

Lemma example_store_b_in_sync : in_sync example_config example_store_b.
Proof.
  unfold in_sync. split; [reflexivity|]. split; [|reflexivity].
  vm_compute. lia.
Defined.

(** The scenario of the expired key: 1100 ms after a [create] with a ttl of
    one second, [get] fails with the expiry error, and again with the
    not-found error. *)
Lemma get_expired_witness :
  fst (get (PyStr "b") 2100 example_store_b) = Raise (TtlExpired (PyStr "b"))
  /\ data (snd (get (PyStr "b") 2100 example_store_b)) = []
  /\ in_sync example_config (snd (get (PyStr "b") 2100 example_store_b))
  /\ get (PyStr "b") 2100 (snd (get (PyStr "b") 2100 example_store_b))
     = (Raise (KeyNotInDatastore (PyStr "b")),
        snd (get (PyStr "b") 2100 example_store_b)).
Proof.
  destruct (get_expired example_config example_getsizeof example_store_b
              "b"%string (PyDict [("y"%string, PyInt 1)]) 1000%Z 1%Z 2100%Z)
    as ((Hdata & Hlater & Hfails & _ & Hsync) & _).
  - reflexivity.
  - reflexivity.
  - split; [exact Hfails|]. split; [exact Hdata|].
    split; [exact (Hsync eq_refl eq_refl) | exact (Hlater 2100%Z)].
Defined.

(** C4 as stated fails.  After [create("b", {"y": 1}, ttl=1)] at time 1000,
    which returns, and a [create] at time 1500 whose write to the region
    fails, the key "b" is present with a ttl that has elapsed at time 2100;
    [get] of "b" at that time removes the key and then fails in the write to
    the region (the map that is left does not fit), not with the expiry
    error. *)
Lemma get_expired_out_of_room :
  fst (create example_config example_getsizeof (PyStr "b")
         (PyDict [("y"%string, PyInt 1)]) (PyInt 1) 1000 example_store) = Ok tt
  /\ fst (create example_config example_getsizeof (PyStr "a") example_big_value
            PyNone 1500 example_store_b)
     = Raise MmapDataOutOfRange
  /\ dict_get "b" (data example_store_b_overflowed)
     = Some (record (PyDict [("y"%string, PyInt 1)]) 1000 (PyInt 1))
  /\ (2100 - 1000 > 1 * 1000)%Z
  /\ fst (get (PyStr "b") 2100 example_store_b_overflowed)
     = Raise MmapDataOutOfRange
  /\ fst (get (PyStr "b") 2100 example_store_b_overflowed)
     <> Raise (TtlExpired (PyStr "b"))
  /\ dict_get "b" (data (snd (get (PyStr "b") 2100 example_store_b_overflowed)))
     = None.
Proof.
  repeat (split; [reflexivity|]).
  split; [|reflexivity].
  intros H. vm_compute in H. discriminate H.
Qed.

Lemma example_store_a_shaped : well_shaped example_config example_store_a.
Proof.
  split; [|reflexivity].
  apply wf_dict_iff. split.
  - constructor; [intros [] | constructor].
  - constructor; [|constructor].
    apply wf_list_iff. constructor.
    + apply wf_dict_iff. split.
      * constructor; [intros [] | constructor].
      * constructor; [exact I | constructor].
    + constructor; [exact I|]. constructor; [exact I | constructor].
Defined.

Lemma flush_then_reopen_witness :
  _read_data (mmap (snd (flush example_store_a))) = Ok (data example_store_a)
  /\ DataStore_init example_config
       (Mmap.read_all (mmap (snd (flush example_store_a))))
     = Ok {| data := data example_store_a;
             mmap := {| Mmap.buf := Mmap.buf (mmap (snd (flush example_store_a)));
                        Mmap.pos := 0 |} |}.
Proof.
  destruct (flush_then_reopen example_config example_store_a
              (snd (flush example_store_a))) as (Hread & Hopen & _).
  - exact example_store_a_shaped.
  - reflexivity.
  - split; [exact Hread | exact Hopen].
Defined.

(** C5 as stated fails.  [create("t", {"x": (1, 2)})] on the fresh store
    returns: the value is a dict, which is all that [is_valid] asks of its
    type.  The map then holds a tuple; [flush] returns, and what [_read_data]
    reads back from the region holds a list in its place: it is not the map
    that was flushed. *)
Lemma reopen_after_tuple :
  is_valid example_config example_getsizeof example_tuple_value val_type_value
  = Ok true
  /\ fst (create example_config example_getsizeof (PyStr "t")
            example_tuple_value PyNone 1000 example_store) = Ok tt
  /\ data example_store_t
     = [("t"%string,
         PyList [PyDict [("x"%string, PyTuple [PyInt 1; PyInt 2])];
                 PyInt 1000; PyNone])]
  /\ fst (flush example_store_t) = Ok tt
  /\ _read_data (mmap (snd (flush example_store_t)))
     = Ok [("t"%string,
            PyList [PyDict [("x"%string, PyList [PyInt 1; PyInt 2])];
                    PyInt 1000; PyNone])]
  /\ _read_data (mmap (snd (flush example_store_t)))
     <> Ok (data example_store_t).
Proof.
  repeat (split; [reflexivity|]).
  intros H. vm_compute in H. discriminate H.
Qed.

Lemma operations_keep_sync_witness :
  fst (flush example_store_b) = Ok tt
  /\ in_sync example_config (snd (flush example_store_b)).
Proof.
  apply (operations_keep_sync example_config example_getsizeof example_store_b
           example_store_b_in_sync).
Defined.

(** C2 as stated fails.  On the fresh store, which is in sync, [create] of a
    valid key and a valid value whose record does not fit the 64 bytes of the
    region raises in the write to the region: the map already holds the new
    record, the region still holds the snapshot of the empty map, and the
    two are out of sync. *)
Lemma create_overflow_out_of_sync :
  in_sync example_config example_store
  /\ is_valid example_config example_getsizeof (PyStr "a") val_type_key = Ok true
  /\ is_valid example_config example_getsizeof example_big_value val_type_value
     = Ok true
  /\ fst (create example_config example_getsizeof (PyStr "a") example_big_value
            PyNone 1000 example_store)
     = Raise MmapDataOutOfRange
  /\ data (snd (create example_config example_getsizeof (PyStr "a")
                  example_big_value PyNone 1000 example_store))
     = [("a"%string, record example_big_value 1000 PyNone)]
  /\ Mmap.buf (mmap (snd (create example_config example_getsizeof (PyStr "a")
                            example_big_value PyNone 1000 example_store)))
     = Mmap.buf (mmap example_store)
  /\ ~ in_sync example_config
         (snd (create example_config example_getsizeof (PyStr "a")
                 example_big_value PyNone 1000 example_store)).
Proof.
  split; [exact example_store_in_sync|].
  repeat (split; [reflexivity|]).
  intros (_ & Hfit & _). vm_compute in Hfit. lia.
Qed.

(* ================================================================== *)
(** * Further properties of the engine *)
(* ================================================================== *)

Section Further.

Variable cfg : config.
Variable getsizeof : pyval -> Z.

Lemma get_absent (k : string) (now : Z) (self : DataStore) :
  dict_get k (data self) = None ->
  get (PyStr k) now self = (Raise (KeyNotInDatastore (PyStr k)), self).
Proof. intros H. rewrite get_eq, H. reflexivity. Qed.

(** X1. On a store whose region mirrors its map, [delete] of a key that is
    in the map returns, removes the key and flushes: the region mirrors the
    new map, every later [get] of the key fails with the not-found error, and
    the records of the other keys are as they were. *)
Theorem delete_present_key (self : DataStore) (k : string) :
  in_sync cfg self ->
  dict_mem k (data self) = true ->
  let self' := snd (delete (PyStr k) self) in
  fst (delete (PyStr k) self) = Ok tt
  /\ data self' = dict_del k (data self)
  /\ in_sync cfg self'
  /\ (forall now,
         get (PyStr k) now self' = (Raise (KeyNotInDatastore (PyStr k)), self'))
  /\ (forall k', k' <> k -> dict_get k' (data self') = dict_get k' (data self)).
Proof.
  intros Hsync Hk self'. subst self'.
  rewrite delete_eq. cbn [contains]. rewrite Hk.
  destruct (flush_smaller_in_sync cfg (dict_del k (data self)) self Hsync
              (length_snapshot_del k (data self))) as (Hok & Hdata & Hsync').
  split; [exact Hok|]. split; [exact Hdata|]. split; [exact Hsync'|]. split.
  - intros now. apply get_absent. rewrite Hdata. apply dict_get_del_eq.
  - intros k' Hne. rewrite Hdata. apply dict_get_del_ne, Hne.
Qed.

(** X2. On a region of the configured capacity, of two bytes or more,
    [delete_all] returns whatever the store held: the map is empty, the region
    holds the text of the empty map followed by null bytes only, and every
    later [get] fails with the not-found error. *)
Theorem delete_all_clears (self : DataStore) :
  Mmap.size (mmap self) = MAX_LOCAL_STORAGE_SIZE cfg ->
  2 <= MAX_LOCAL_STORAGE_SIZE cfg ->
  let self' := snd (delete_all self) in
  fst (delete_all self) = Ok tt
  /\ data self' = []
  /\ Mmap.buf (mmap self')
     = snapshot [] ++ repeat NUL (MAX_LOCAL_STORAGE_SIZE cfg - 2)
  /\ in_sync cfg self'
  /\ (forall k now,
         get (PyStr k) now self' = (Raise (KeyNotInDatastore (PyStr k)), self')).
Proof.
  intros Hcap Htwo self'. subst self'. rewrite delete_all_eq.
  assert (Hroom : List.length (snapshot []) <= Mmap.size (mmap self))
    by (rewrite Hcap; exact Htwo).
  destruct (flush_room_in_sync cfg [] self Hcap Hroom) as (Hok & Hdata & Hsync').
  split; [exact Hok|]. split; [exact Hdata|]. split; [|split].
  - rewrite flush_with_data_fits by exact Hroom. cbn [snd mmap Mmap.buf].
    unfold Mmap.size in Hcap. rewrite Hcap. reflexivity.
  - exact Hsync'.
  - intros k now. apply get_absent. rewrite Hdata. reflexivity.
Qed.

(** X3. A [get] that returns a value has changed nothing: the key is a [str]
    of the map, the value is the first element of its record, and the record
    is not expired at the time of the call. *)
Theorem get_value_reads_only (self self' : DataStore) (key v : pyval) (now : Z) :
  get key now self = (Ok v, self') ->
  self' = self
  /\ exists k entry c t rest,
       key = PyStr k
       /\ dict_get k (data self) = Some entry
       /\ unpack entry = Ok (v :: c :: t :: rest)
       /\ is_expired {| value := v; ttl := t; created_at := c |} now = Ok false.
Proof.
  intros H.
  destruct key as [| | | k | | |];
    try (match type of H with
         | get ?key _ _ = _ =>
             destruct (get_not_str_eq key now self ltac:(intros; discriminate))
               as [E | E]
         end; rewrite E in H; discriminate H).
  rewrite get_eq in H.
  destruct (dict_get k (data self)) as [entry|] eqn:Eentry; [|discriminate H].
  destruct (unpack entry) as [args|e] eqn:Eargs; [|discriminate H].
  destruct args as [|v0 [|c [|t rest]]]; try discriminate H.
  cbn [DataStoreVO_init] in H.
  destruct (is_expired _ now) as [[|]|e] eqn:Eexp; try discriminate H.
  - destruct (flush _) as [[u|e] st]; discriminate H.
  - cbn [value] in H. injection H as <- <-.
    split; [reflexivity|].
    exists k, entry, c, t, rest. repeat split; assumption.
Qed.

(** X4. With the key absent, [create] fails on its arguments in this order
    and changes nothing: a key that is not a [str] raises the key-type
    error; a [str] key longer than [MAX_KEY_LEN] raises the size error
    whatever the value is (the value is not looked at, not even its type); with
    a key that passes, a value that is not a dict raises the value-type
    error, and a dict larger than [MAX_VALUE_SIZE] raises the size error. *)
Theorem create_validation_errors (self : DataStore)
    (key value ttl_given : pyval) (now : Z) :
  contains key (data self) = Ok false ->
  ((forall k, key <> PyStr k) ->
   create cfg getsizeof key value ttl_given now self
   = (Raise (KeyNotStr key), self))
  /\ (forall k,
         key = PyStr k ->
         (MAX_KEY_LEN cfg < Z.of_nat (String.length k))%Z ->
         create cfg getsizeof key value ttl_given now self
         = (Raise (SizeConfigNotMet (MAX_KEY_LEN cfg) (MAX_VALUE_SIZE cfg)),
            self))
  /\ (forall k,
         key = PyStr k ->
         (Z.of_nat (String.length k) <= MAX_KEY_LEN cfg)%Z ->
         (forall d, value <> PyDict d) ->
         create cfg getsizeof key value ttl_given now self
         = (Raise (ValueNotDict value), self))
  /\ (forall k d,
         key = PyStr k ->
         (Z.of_nat (String.length k) <= MAX_KEY_LEN cfg)%Z ->
         value = PyDict d ->
         (MAX_VALUE_SIZE cfg < getsizeof value)%Z ->
         create cfg getsizeof key value ttl_given now self
         = (Raise (SizeConfigNotMet (MAX_KEY_LEN cfg) (MAX_VALUE_SIZE cfg)),
            self)).
Proof.
  intros Hc. rewrite create_eq, Hc.
  split; [|split; [|split]].
  - intros Hne. destruct key; try reflexivity.
    exfalso. eapply Hne. reflexivity.
  - intros k -> Hlong. cbn [is_valid].
    assert (E : (Z.of_nat (String.length k) <=? MAX_KEY_LEN cfg)%Z = false)
      by (apply Z.leb_gt; lia).
    rewrite E. reflexivity.
  - intros k -> Hlen Hne. cbn [is_valid].
    apply Z.leb_le in Hlen. rewrite Hlen.
    destruct value; try reflexivity.
    exfalso. eapply Hne. reflexivity.
  - intros k d -> Hlen -> Hbig. cbn [is_valid].
    apply Z.leb_le in Hlen. rewrite Hlen.
    assert (E : (getsizeof (PyDict d) <=? MAX_VALUE_SIZE cfg)%Z = false)
      by (apply Z.leb_gt; lia).
    rewrite E. reflexivity.
Qed.

Lemma coerce_ttl_given (ttl_given : pyval) :
  ttl_given <> PyNone ->
  coerce_ttl ttl_given
  = match py_int ttl_given with
    | Some t => Ok (PyInt t)
    | None => Raise (TtlNotInteger ttl_given)
    end.
Proof.
  intros Hne. destruct ttl_given; try reflexivity. contradiction Hne. reflexivity.
Qed.

(** X5. With a valid key that is absent and a valid value, a ttl that is
    given goes through [int]: when it coerces (an [int], a [bool], the text
    of an integer), the record holds the integer; when it does not, [create]
    fails with the ttl error and changes nothing. *)
Theorem create_ttl_coercion (self : DataStore) (k : string) (d : pydict)
    (ttl_given : pyval) (now : Z) :
  dict_mem k (data self) = false ->
  (Z.of_nat (String.length k) <= MAX_KEY_LEN cfg)%Z ->
  (getsizeof (PyDict d) <= MAX_VALUE_SIZE cfg)%Z ->
  ttl_given <> PyNone ->
  match py_int ttl_given with
  | Some t =>
      dict_get k
        (data (snd (create cfg getsizeof (PyStr k) (PyDict d) ttl_given now self)))
      = Some (record (PyDict d) now (PyInt t))
  | None =>
      create cfg getsizeof (PyStr k) (PyDict d) ttl_given now self
      = (Raise (TtlNotInteger ttl_given), self)
  end.
Proof.
  intros Hk Hlen Hsize Hgiven.
  pose proof (coerce_ttl_given ttl_given Hgiven) as Httl.
  destruct (py_int ttl_given) as [t|].
  - rewrite (create_valid cfg getsizeof k d ttl_given (PyInt t) now self
               Hk Hlen Hsize Httl).
    rewrite flush_data. cbn [with_data data]. apply dict_get_set_eq.
  - rewrite create_eq. cbn [contains is_valid]. rewrite Hk.
    apply Z.leb_le in Hlen. apply Z.leb_le in Hsize.
    rewrite Hlen, Hsize, Httl. reflexivity.
Qed.

(** *** Records *)

Lemma all_records_set (k : string) (r : pyval) (d : pydict) :
  all_records d = true -> is_record r = true ->
  all_records (dict_set k r d) = true.
Proof.
  unfold all_records. intros Hd Hr.
  induction d as [|[k' v'] d IH]; cbn [dict_set forallb snd] in *.
  - rewrite Hr. reflexivity.
  - apply andb_prop in Hd. destruct Hd as [Hv' Hd].
    destruct (String.eqb k k'); cbn [forallb snd].
    + rewrite Hr, Hd. reflexivity.
    + rewrite Hv', (IH Hd). reflexivity.
Qed.

Lemma all_records_del (k : string) (d : pydict) :
  all_records d = true -> all_records (dict_del k d) = true.
Proof.
  unfold all_records. intros Hd.
  induction d as [|[k' v'] d IH]; cbn [dict_del forallb snd] in *;
    [reflexivity|].
  apply andb_prop in Hd. destruct Hd as [Hv' Hd].
  destruct (String.eqb k k'); cbn [forallb snd]; [exact (IH Hd)|].
  rewrite Hv', (IH Hd). reflexivity.
Qed.

Lemma all_records_get (k : string) (entry : pyval) (d : pydict) :
  all_records d = true -> dict_get k d = Some entry -> is_record entry = true.
Proof.
  unfold all_records. intros Hd Hget.
  induction d as [|[k' v'] d IH]; cbn [dict_get forallb snd] in *;
    [discriminate Hget|].
  apply andb_prop in Hd. destruct Hd as [Hv' Hd].
  destruct (String.eqb k k'); [injection Hget as <-; exact Hv' | exact (IH Hd Hget)].
Qed.

Lemma is_record_inv (entry : pyval) :
  is_record entry = true ->
  exists v c,
    entry = record v c PyNone \/ exists t, entry = record v c (PyInt t).
Proof.
  intros H.
  destruct entry as [| | | | l | |]; try discriminate H.
  destruct l as [|v l]; try discriminate H.
  destruct l as [|c l]; try discriminate H.
  destruct c as [| | c | | | |]; try discriminate H.
  destruct l as [|t l]; try discriminate H.
  destruct l as [|x l]; [|destruct t; discriminate H].
  exists v, c.
  destruct t as [| | t | | | |]; try discriminate H.
  - left. reflexivity.
  - right. exists t. reflexivity.
Qed.

(** X6. Once every key of the map holds a record as [create] writes it (a
    list of a value, an [int] creation time and a ttl that is [None] or an
    [int]), it stays so through every operation, whatever the arguments and
    whether the operation returns or raises. *)
Theorem operations_keep_records (self : DataStore) :
  all_records (data self) = true ->
  (forall key value ttl_given now,
      all_records
        (data (snd (create cfg getsizeof key value ttl_given now self))) = true)
  /\ (forall key now, all_records (data (snd (get key now self))) = true)
  /\ (forall key, all_records (data (snd (delete key self))) = true)
  /\ all_records (data (snd (delete_all self))) = true
  /\ all_records (data (snd (flush self))) = true.
Proof.
  intros Hrec. split; [|split; [|split; [|split]]].
  - intros key value ttl_given now. rewrite create_eq.
    destruct (contains key (data self)) as [[|]|e]; try exact Hrec.
    destruct (is_valid cfg getsizeof key val_type_key) as [[|]|e];
      try exact Hrec.
    destruct (is_valid cfg getsizeof value val_type_value) as [[|]|e];
      try exact Hrec.
    destruct (coerce_ttl ttl_given) as [ttl_stored|e] eqn:Ettl;
      try exact Hrec.
    destruct key as [| | | k | | |]; try exact Hrec.
    rewrite flush_data. cbn [with_data data].
    apply all_records_set; [exact Hrec|].
    destruct (coerce_ttl_cases _ _ Ettl) as [-> | [t ->]]; reflexivity.
  - intros key now.
    destruct key as [| | | k | | |];
      try (rewrite get_not_str by (intros; discriminate); exact Hrec).
    rewrite get_eq.
    destruct (dict_get k (data self)) as [entry|]; [|exact Hrec].
    destruct (unpack entry) as [args|e]; [|exact Hrec].
    destruct (DataStoreVO_init args) as [vo|e]; [|exact Hrec].
    destruct (is_expired vo now) as [[|]|e]; try exact Hrec.
    pose proof (flush_data (with_data (dict_del k (data self)) self)) as Hd.
    destruct (flush (with_data (dict_del k (data self)) self)) as [[u|e] st];
      cbn [snd] in *; rewrite Hd; apply all_records_del, Hrec.
  - intros key. rewrite delete_eq.
    destruct (contains key (data self)) as [[|]|e]; try exact Hrec.
    destruct key as [| | | k | | |]; try exact Hrec.
    rewrite flush_data. apply all_records_del, Hrec.
  - rewrite delete_all_eq, flush_data. reflexivity.
  - rewrite flush_data. exact Hrec.
Qed.

(** X7. On a map of such records, [get] of a [str] key never raises a
    [TypeError]: it fails with the not-found error, returns a value, fails
    with the expiry error, or fails in the write to the region after the
    removal of an expired key. *)
Theorem get_outcomes_on_records (self : DataStore) (k : string) (now : Z) :
  all_records (data self) = true ->
  fst (get (PyStr k) now self) = Raise (KeyNotInDatastore (PyStr k))
  \/ (exists v, fst (get (PyStr k) now self) = Ok v)
  \/ fst (get (PyStr k) now self) = Raise (TtlExpired (PyStr k))
  \/ fst (get (PyStr k) now self) = Raise MmapDataOutOfRange.
Proof.
  intros Hrec. rewrite get_eq.
  destruct (dict_get k (data self)) as [entry|] eqn:Eentry;
    [|left; reflexivity].
  destruct (is_record_inv entry (all_records_get k entry _ Hrec Eentry))
    as (v & c & [-> | [t ->]]).
  - right. left. exists v. reflexivity.
  - cbn [record unpack DataStoreVO_init is_expired ttl created_at as_int].
    destruct (now - c >? t * 1000)%Z.
    + rewrite flush_eq. cbv zeta.
      destruct (_ <=? _); cbn [fst]; right; right; [left | right]; reflexivity.
    + right. left. exists v. reflexivity.
Qed.

(** X8. On a region of the configured capacity that has room for the new
    snapshot, [create] of a valid key that is absent and a valid value
    returns, the map holds the record under the key, the region mirrors the
    new map, and the records of the other keys are as they were. *)
Theorem create_writes_through (self : DataStore) (k : string) (d : pydict)
    (ttl_given ttl_stored : pyval) (now : Z) :
  Mmap.size (mmap self) = MAX_LOCAL_STORAGE_SIZE cfg ->
  dict_mem k (data self) = false ->
  (Z.of_nat (String.length k) <= MAX_KEY_LEN cfg)%Z ->
  (getsizeof (PyDict d) <= MAX_VALUE_SIZE cfg)%Z ->
  coerce_ttl ttl_given = Ok ttl_stored ->
  List.length (snapshot (dict_set k (record (PyDict d) now ttl_stored)
                           (data self)))
  <= Mmap.size (mmap self) ->
  let self' :=
    snd (create cfg getsizeof (PyStr k) (PyDict d) ttl_given now self) in
  fst (create cfg getsizeof (PyStr k) (PyDict d) ttl_given now self) = Ok tt
  /\ data self' = dict_set k (record (PyDict d) now ttl_stored) (data self)
  /\ in_sync cfg self'
  /\ (forall k', k' <> k -> dict_get k' (data self') = dict_get k' (data self)).
Proof.
  intros Hcap Hk Hlen Hsize Httl Hroom self'. subst self'.
  rewrite (create_valid cfg getsizeof k d ttl_given ttl_stored now self
             Hk Hlen Hsize Httl).
  destruct (flush_room_in_sync cfg _ self Hcap Hroom) as (Hok & Hdata & Hsync').
  split; [exact Hok|]. split; [exact Hdata|]. split; [exact Hsync'|].
  intros k' Hne. rewrite Hdata. apply dict_get_set_ne, Hne.
Qed.

(** *** Reopening *)

Lemma init_on_snapshot (d : pydict) (n : nat) :
  wf_pyval (PyDict d) ->
  List.length (snapshot d) <= MAX_LOCAL_STORAGE_SIZE cfg ->
  DataStore_init cfg (snapshot d ++ repeat NUL n)
  = Ok {| data := listify_dict d;
          mmap := {| Mmap.buf :=
                       snapshot d
                       ++ repeat NUL (MAX_LOCAL_STORAGE_SIZE cfg
                                      - List.length (snapshot d));
                     Mmap.pos := 0 |} |}.
Proof.
  intros Hwf Hfit.
  unfold DataStore_init, _get_mmaped_fd.
  rewrite mmap_nonempty by (unfold snapshot; rewrite dumps_dict; discriminate).
  rewrite resize_snapshot_padded by exact Hfit.
  rewrite (read_data_snapshot d _ 0 Hwf). reflexivity.
Qed.

Lemma dict_get_listify (k : string) (d : pydict) :
  dict_get k (listify_dict d) = option_map listify (dict_get k d).
Proof.
  induction d as [|[k' v'] d IH]; cbn [listify_dict map dict_get fst snd];
    [reflexivity|].
  destruct (String.eqb k k'); [reflexivity | exact IH].
Qed.

(** X9. What [create] has written survives a restart: after a [create]
    that returned, on a store with the shape of every opened store and with a
    value whose dicts have distinct keys, a store opened on the bytes of the
    region holds the map as JSON gives it back (with a list in place of every
    tuple), and its [get] of the key returns the value as JSON gives it back,
    which is the value itself when it holds no tuple, while the ttl, counted
    from the first creation, has not elapsed. *)
Theorem create_persists (self : DataStore) (k : string) (d : pydict)
    (ttl_given ttl_stored : pyval) (now now' : Z) :
  well_shaped cfg self ->
  wf_pyval (PyDict d) ->
  dict_mem k (data self) = false ->
  (Z.of_nat (String.length k) <= MAX_KEY_LEN cfg)%Z ->
  (getsizeof (PyDict d) <= MAX_VALUE_SIZE cfg)%Z ->
  coerce_ttl ttl_given = Ok ttl_stored ->
  fst (create cfg getsizeof (PyStr k) (PyDict d) ttl_given now self) = Ok tt ->
  (forall t, ttl_stored = PyInt t -> (now' - now <= t * 1000)%Z) ->
  exists reopened,
    DataStore_init cfg
      (Mmap.read_all
         (mmap (snd (create cfg getsizeof (PyStr k) (PyDict d) ttl_given now
                       self))))
    = Ok reopened
    /\ data reopened
       = listify_dict
           (data (snd (create cfg getsizeof (PyStr k) (PyDict d) ttl_given now
                         self)))
    /\ get (PyStr k) now' reopened = (Ok (listify (PyDict d)), reopened)
    /\ (json_native (PyDict d) = true ->
        get (PyStr k) now' reopened = (Ok (PyDict d), reopened)).
Proof.
  intros [Hwf Hcap] Hwfd Hk Hlen Hsize Httl Hok Hlive.
  rewrite (create_valid cfg getsizeof k d ttl_given ttl_stored now self
             Hk Hlen Hsize Httl) in *.
  rewrite flush_eq in *. cbv zeta in *. cbn [with_data data mmap] in *.
  destruct (List.length
              (snapshot (dict_set k (record (PyDict d) now ttl_stored)
                           (data self)))
            <=? List.length (Mmap.buf (mmap self))) eqn:Hfit;
    [|discriminate Hok].
  apply Nat.leb_le in Hfit. cbn [snd mmap data Mmap.buf Mmap.read_all].
  unfold Mmap.size in Hcap.
  assert (Hwf' : wf_pyval
                   (PyDict (dict_set k (record (PyDict d) now ttl_stored)
                              (data self)))).
  { apply wf_dict_set; [exact Hwf|].
    apply wf_list_iff. constructor; [exact Hwfd|].
    constructor; [exact I|]. constructor; [|constructor].
    destruct (coerce_ttl_cases _ _ Httl) as [-> | [t ->]]; exact I. }
  assert (Hget : forall reopened,
             data reopened
             = listify_dict (dict_set k (record (PyDict d) now ttl_stored)
                               (data self)) ->
             get (PyStr k) now' reopened = (Ok (listify (PyDict d)), reopened)).
  { intros reopened Hdata.
    rewrite get_eq, Hdata, dict_get_listify, dict_get_set_eq.
    cbn [option_map record listify map unpack DataStoreVO_init].
    assert (Hexp : is_expired {| value := PyDict (listify_dict d);
                                 ttl := listify ttl_stored;
                                 created_at := PyInt now |} now' = Ok false).
    { destruct (coerce_ttl_cases _ _ Httl) as [-> | [t ->]]; [reflexivity|].
      cbn [listify is_expired ttl created_at as_int]. f_equal.
      specialize (Hlive t eq_refl).
      destruct (Z.gtb_spec (now' - now) (t * 1000)); [lia | reflexivity]. }
    fold (listify_dict d). rewrite Hexp. reflexivity. }
  eexists. split; [|split; [|split]].
  - rewrite init_on_snapshot by (exact Hwf' || lia). reflexivity.
  - reflexivity.
  - apply Hget. reflexivity.
  - intros Hnative.
    match goal with
    | |- get _ _ ?reopened = _ => rewrite (Hget reopened eq_refl)
    end.
    rewrite (listify_native _ Hnative). reflexivity.
Qed.

(** X10. [flush] writes all or nothing.  It never changes the map nor the
    size of the region.  When the text of the map fits the region it returns
    and the region holds that text followed by null bytes only, with nothing
    left of what was there; when the text is longer than the region it raises
    from the write and every byte of the region is as it was. *)
Theorem flush_all_or_nothing (self : DataStore) :
  data (snd (flush self)) = data self
  /\ Mmap.size (mmap (snd (flush self))) = Mmap.size (mmap self)
  /\ ((List.length (snapshot (data self)) <= Mmap.size (mmap self)
       /\ fst (flush self) = Ok tt
       /\ Mmap.buf (mmap (snd (flush self)))
          = snapshot (data self)
            ++ repeat NUL (Mmap.size (mmap self)
                           - List.length (snapshot (data self))))
      \/ (Mmap.size (mmap self) < List.length (snapshot (data self))
          /\ fst (flush self) = Raise MmapDataOutOfRange
          /\ Mmap.buf (mmap (snd (flush self))) = Mmap.buf (mmap self))).
Proof.
  unfold Mmap.size. rewrite flush_eq. cbv zeta.
  destruct (List.length (snapshot (data self))
            <=? List.length (Mmap.buf (mmap self))) eqn:Hfit;
    cbn [fst snd data mmap Mmap.buf Mmap.seek].
  - apply Nat.leb_le in Hfit.
    split; [reflexivity|]. split.
    + rewrite length_app, repeat_length. lia.
    + left. split; [exact Hfit|]. split; reflexivity.
  - apply Nat.leb_gt in Hfit.
    split; [reflexivity|]. split; [reflexivity|].
    right. split; [exact Hfit|]. split; reflexivity.
Qed.

Lemma dict_del_set_fresh (k : string) (v : pyval) (d : pydict) :
  dict_mem k d = false -> dict_del k (dict_set k v d) = d.
Proof.
  unfold dict_mem.
  induction d as [|[k' v'] d IH]; cbn [dict_get dict_set dict_del].
  - rewrite String.eqb_refl. reflexivity.
  - destruct (String.eqb k k') eqn:E; [discriminate|].
    intros Hd. cbn [dict_del]. rewrite E, (IH Hd). reflexivity.
Qed.

(** X11. A [create] that the region cannot hold, and the way back.  On a
    store whose region mirrors its map, when the snapshot with the new record
    is longer than the region, [create] of a valid key and value raises from
    the write to the region; the record stays in the map, the region keeps
    its bytes, and [flush] goes on failing.  [delete] of the key then returns
    and brings back the former map, mirrored by the region. *)
Theorem create_overflow_recovery (self : DataStore) (k : string) (d : pydict)
    (ttl_given ttl_stored : pyval) (now : Z) :
  in_sync cfg self ->
  dict_mem k (data self) = false ->
  (Z.of_nat (String.length k) <= MAX_KEY_LEN cfg)%Z ->
  (getsizeof (PyDict d) <= MAX_VALUE_SIZE cfg)%Z ->
  coerce_ttl ttl_given = Ok ttl_stored ->
  Mmap.size (mmap self)
  < List.length (snapshot (dict_set k (record (PyDict d) now ttl_stored)
                             (data self))) ->
  let self1 :=
    snd (create cfg getsizeof (PyStr k) (PyDict d) ttl_given now self) in
  fst (create cfg getsizeof (PyStr k) (PyDict d) ttl_given now self)
  = Raise MmapDataOutOfRange
  /\ dict_get k (data self1) = Some (record (PyDict d) now ttl_stored)
  /\ Mmap.buf (mmap self1) = Mmap.buf (mmap self)
  /\ fst (flush self1) = Raise MmapDataOutOfRange
  /\ fst (delete (PyStr k) self1) = Ok tt
  /\ data (snd (delete (PyStr k) self1)) = data self
  /\ in_sync cfg (snd (delete (PyStr k) self1)).
Proof.
  intros Hsync Hk Hlen Hsize Httl Hover self1. subst self1.
  rewrite (create_overflow cfg getsizeof k d ttl_given ttl_stored now self
             Hk Hlen Hsize Httl Hover).
  cbn [fst snd data mmap Mmap.seek Mmap.buf].
  destruct Hsync as (Hcap & Hfit & Hregion).
  split; [reflexivity|]. split; [apply dict_get_set_eq|].
  split; [reflexivity|]. split.
  - rewrite flush_eq. cbv zeta. cbn [data mmap Mmap.buf Mmap.seek].
    apply Nat.leb_gt in Hover. unfold Mmap.size in Hover.
    rewrite Hover. reflexivity.
  - rewrite delete_eq. cbn [contains data].
    rewrite dict_mem_set_eq, (dict_del_set_fresh _ _ _ Hk).
    apply (flush_room_in_sync cfg (data self)
             {| data := dict_set k (record (PyDict d) now ttl_stored) (data self);
                mmap := {| Mmap.buf := Mmap.buf (mmap self); Mmap.pos := 0 |} |});
      assumption.
Qed.

(** X12. [get] of a key whose record has expired removes the key from the
    map in every case, before anything is written.  It then fails with the
    expiry error exactly when the map without the key fits the region, and
    with the error of the write to the region otherwise; every later [get]
    of the key fails with the not-found error. *)
Theorem get_expired_always_evicts (self : DataStore) (k : string) (v : pyval)
    (created_at_ms ttl_seconds now : Z) :
  dict_get k (data self) = Some (record v created_at_ms (PyInt ttl_seconds)) ->
  (now - created_at_ms > ttl_seconds * 1000)%Z ->
  let self' := snd (get (PyStr k) now self) in
  data self' = dict_del k (data self)
  /\ (fst (get (PyStr k) now self)
      = if List.length (snapshot (dict_del k (data self)))
           <=? Mmap.size (mmap self)
        then Raise (TtlExpired (PyStr k))
        else Raise MmapDataOutOfRange)
  /\ (forall now',
         get (PyStr k) now' self' = (Raise (KeyNotInDatastore (PyStr k)), self')).
Proof.
  intros Hentry Hold self'. subst self'.
  rewrite get_eq, Hentry.
  cbn [record unpack DataStoreVO_init is_expired ttl created_at as_int].
  assert (Hgt : (now - created_at_ms >? ttl_seconds * 1000)%Z = true)
    by (apply Z.gtb_lt; lia).
  rewrite Hgt, flush_eq. cbv zeta. cbn [with_data data mmap].
  unfold Mmap.size.
  destruct (List.length (snapshot (dict_del k (data self)))
            <=? List.length (Mmap.buf (mmap self)));
    cbn [fst snd data];
    (split; [reflexivity|]; split; [reflexivity|]);
    intros now'; apply get_absent; cbn [data]; apply dict_get_del_eq.
Qed.

Lemma get_ok_same_entry (k : string) (v : pyval) (now : Z)
    (self other : DataStore) :
  dict_get k (data other) = dict_get k (data self) ->
  fst (get (PyStr k) now self) = Ok v ->
  fst (get (PyStr k) now other) = Ok v.
Proof.
  intros Hsame. rewrite !get_eq, Hsame.
  destruct (dict_get k (data self)) as [entry|]; [|exact (fun H => H)].
  destruct (unpack entry) as [args|e]; [|exact (fun H => H)].
  destruct (DataStoreVO_init args) as [vo|e]; [|exact (fun H => H)].
  destruct (is_expired vo now) as [[|]|e]; try exact (fun H => H).
  destruct (flush (with_data (dict_del k (data self)) self)) as [[u|e] st];
    intros H; discriminate H.
Qed.

(** X13. Keys do not disturb each other: a value that [get] returns for a key
    is still returned, at the same time of reading, after a [create], a
    [delete] or a [get] with any other key, whatever these did. *)
Theorem other_keys_undisturbed (self : DataStore) (k : string) (v : pyval)
    (now : Z) (key' : pyval) :
  fst (get (PyStr k) now self) = Ok v ->
  key' <> PyStr k ->
  (forall value ttl_given now0,
      fst (get (PyStr k) now
             (snd (create cfg getsizeof key' value ttl_given now0 self)))
      = Ok v)
  /\ fst (get (PyStr k) now (snd (delete key' self))) = Ok v
  /\ (forall now0, fst (get (PyStr k) now (snd (get key' now0 self))) = Ok v).
Proof.
  intros Hget Hne. split; [|split].
  - intros value ttl_given now0.
    apply (get_ok_same_entry k v now self); [|exact Hget].
    apply (create_frame cfg getsizeof), Hne.
  - apply (get_ok_same_entry k v now self); [|exact Hget].
    apply delete_frame, Hne.
  - intros now0.
    apply (get_ok_same_entry k v now self); [|exact Hget].
    apply get_frame, Hne.
Qed.

(** X14. Expiry does not come back: a record that [is_expired] reports as
    expired is reported as expired at every later time. *)
Theorem is_expired_monotone (vo : DataStoreVO) (now now' : Z) :
  is_expired vo now = Ok true ->
  (now <= now')%Z ->
  is_expired vo now' = Ok true.
Proof.
  unfold is_expired. intros H Hlater.
  destruct (ttl vo) as [| b | t | s | l | l | d]; try discriminate H;
    destruct (as_int (created_at vo)) as [c|]; try discriminate H;
    cbn [as_int] in *;
    try (destruct b); try discriminate H;
    injection H as H; apply Z.gtb_lt in H; f_equal; apply Z.gtb_lt; lia.
Qed.

(** X15. [create] does not look at the sign of the ttl.  A negative ttl is
    stored as it is, and the value can then not be read at any time from its
    creation on: [get] never returns it, and the key is gone from the map
    after that [get]. *)
Theorem create_negative_ttl (self : DataStore) (k : string) (d : pydict)
    (ttl_given : pyval) (t now now' : Z) :
  dict_mem k (data self) = false ->
  (Z.of_nat (String.length k) <= MAX_KEY_LEN cfg)%Z ->
  (getsizeof (PyDict d) <= MAX_VALUE_SIZE cfg)%Z ->
  py_int ttl_given = Some t ->
  (t < 0)%Z ->
  (now <= now')%Z ->
  let self1 :=
    snd (create cfg getsizeof (PyStr k) (PyDict d) ttl_given now self) in
  dict_get k (data self1) = Some (record (PyDict d) now (PyInt t))
  /\ (forall v, fst (get (PyStr k) now' self1) <> Ok v)
  /\ dict_get k (data (snd (get (PyStr k) now' self1))) = None.
Proof.
  intros Hk Hlen Hsize Hint Hneg Hlater self1.
  assert (Httl : coerce_ttl ttl_given = Ok (PyInt t)).
  { rewrite coerce_ttl_given; [rewrite Hint; reflexivity|].
    intros ->. discriminate Hint. }
  assert (Hentry : dict_get k (data self1)
                   = Some (record (PyDict d) now (PyInt t))).
  { subst self1.
    rewrite (create_valid cfg getsizeof k d ttl_given (PyInt t) now self
               Hk Hlen Hsize Httl).
    rewrite flush_data. cbn [with_data data]. apply dict_get_set_eq. }
  split; [exact Hentry|].
  rewrite get_eq, Hentry.
  cbn [record unpack DataStoreVO_init is_expired ttl created_at as_int].
  assert (Hgt : (now' - now >? t * 1000)%Z = true) by (apply Z.gtb_lt; lia).
  rewrite Hgt.
  pose proof (flush_data (with_data (dict_del k (data self1)) self1)) as Hd.
  destruct (flush (with_data (dict_del k (data self1)) self1)) as [[u|e] st];
    cbn [fst snd] in *; rewrite Hd; cbn [with_data data];
    (split; [intros v H; discriminate H | apply dict_get_del_eq]).
Qed.

(** X16. [get_instance] on a new (empty) file first writes the text of an
    empty JSON object.  With a capacity of two bytes or more the store opens
    with an empty map and a region that holds that text followed by null
    bytes; with a capacity of one byte the resize cuts the text and the
    opening fails in the JSON decoder; with a capacity of zero the resize
    itself fails, with an [OSError]. *)
Theorem get_instance_empty_file :
  get_instance cfg []
  = if 2 <=? MAX_LOCAL_STORAGE_SIZE cfg then
      Ok {| data := [];
            mmap := {| Mmap.buf :=
                         snapshot []
                         ++ repeat NUL (MAX_LOCAL_STORAGE_SIZE cfg - 2);
                       Mmap.pos := 0 |} |}
    else if MAX_LOCAL_STORAGE_SIZE cfg =? 0 then Raise OSError
    else Raise JSONDecodeError.
Proof.
  destruct (2 <=? MAX_LOCAL_STORAGE_SIZE cfg) eqn:Hcap.
  - apply Nat.leb_le in Hcap.
    unfold get_instance, DataStore_init, _get_mmaped_fd, Mmap.mmap.
    cbn [map Json.chars list_ascii_of_string].
    change [byte_of_ascii "{"; byte_of_ascii "}"]
      with (snapshot [] ++ repeat NUL 0).
    rewrite resize_snapshot_padded by exact Hcap.
    rewrite read_data_snapshot by (split; [constructor | exact I]).
    reflexivity.
  - apply Nat.leb_gt in Hcap.
    destruct cfg as [max_key max_value capacity]. cbn [MAX_LOCAL_STORAGE_SIZE] in *.
    destruct capacity as [|[|capacity]]; [reflexivity | reflexivity | lia].
Qed.

(** X17. A store that [DataStore.__init__] has built with a map (from a
    file whose content, cut or extended to the capacity, is the text of a
    JSON object made of [null], booleans, integers, strings, arrays and
    objects: the files that the embedding reads) has a region of exactly the
    configured capacity and a map whose dicts have distinct keys, and every
    operation keeps both ([create] being given a value whose dicts have
    distinct keys, as every Python value has), whether it returns or
    raises. *)
Theorem opened_store_keeps_shape (file : list byte) (self : DataStore) :
  DataStore_init cfg file = Ok self ->
  well_shaped cfg self
  /\ (forall key value ttl_given now,
         wf_pyval value ->
         well_shaped cfg
           (snd (create cfg getsizeof key value ttl_given now self)))
  /\ (forall key now, well_shaped cfg (snd (get key now self)))
  /\ (forall key, well_shaped cfg (snd (delete key self)))
  /\ well_shaped cfg (snd (delete_all self))
  /\ well_shaped cfg (snd (flush self)).
Proof.
  intros Hinit.
  pose proof (DataStore_init_shaped cfg file self Hinit) as Hshape.
  split; [exact Hshape|].
  exact (operations_keep_shape cfg getsizeof self Hshape).
Qed.

Lemma decode_ascii_nuls (n : nat) :
  decode_ascii (repeat NUL n) = Ok (repeat Ascii.zero n).
Proof. exact (decode_ascii_padded [] n eq_refl). Qed.

(** X18. A file that holds nothing to parse cannot be opened:
    [DataStore.__init__] fails in [mmap] on an empty file; on a file of null
    bytes only, whatever its length, it fails in the JSON decoder (the text
    left by [rstrip] is empty, which is not a JSON value) under every
    capacity but zero, where the resize fails first, with an [OSError]. *)
Theorem open_blank_file_fails (n : nat) :
  DataStore_init cfg [] = Raise MmapEmptyFile
  /\ DataStore_init cfg (repeat NUL (S n))
     = if MAX_LOCAL_STORAGE_SIZE cfg =? 0 then Raise OSError
       else Raise JSONDecodeError.
Proof.
  split; [reflexivity|].
  unfold DataStore_init, _get_mmaped_fd.
  rewrite mmap_nonempty by discriminate.
  destruct (MAX_LOCAL_STORAGE_SIZE cfg =? 0) eqn:Hcap.
  - apply Nat.eqb_eq in Hcap. rewrite Hcap. reflexivity.
  - apply Nat.eqb_neq in Hcap.
    rewrite resize_positive by lia. cbn [Mmap.buf Mmap.pos].
    rewrite repeat_length, firstn_repeat_pad.
    unfold _read_data, Mmap.read_all. cbn [Mmap.buf].
    rewrite decode_ascii_nuls, rstrip_nul_zeros. reflexivity.
Qed.

(** X19. A record without a ttl never expires: whatever the time of the
    call, the creation time that is stored (it is not looked at) and what
    follows the third element of the record, [get] returns the value and
    changes nothing. *)
Theorem get_record_without_ttl (self : DataStore) (k : string)
    (v c : pyval) (rest : list pyval) (now : Z) :
  dict_get k (data self) = Some (PyList (v :: c :: PyNone :: rest)) ->
  get (PyStr k) now self = (Ok v, self).
Proof.
  intros Hentry. rewrite get_eq, Hentry. reflexivity.
Qed.

(** X20. [delete] twice is [delete] once: after a [delete] with a hashable
    key, whatever it did (nothing, a removal that was flushed, a removal
    whose flush failed), a second [delete] with the same key returns and
    changes nothing. *)
Theorem delete_twice (self : DataStore) (key : pyval) (present : bool) :
  contains key (data self) = Ok present ->
  delete key (snd (delete key self)) = (Ok tt, snd (delete key self)).
Proof.
  intros Hc. rewrite (delete_eq key self), Hc.
  destruct present.
  - destruct key as [| | | k | | l |]; try discriminate Hc.
    + rewrite delete_eq, flush_data. cbn [with_data data contains].
      rewrite dict_mem_del_eq. reflexivity.
    + cbn [contains] in Hc. destruct (hashable (PyTuple l)); discriminate Hc.
  - cbn [snd]. rewrite delete_eq, Hc. reflexivity.
Qed.

(** X21. A file that holds the snapshot of a map, followed by any number of
    null bytes, opens under every capacity that the snapshot fits: the store
    holds the map as JSON gives it back (with a list in place of every tuple,
    so the map itself when it holds no tuple), and its region is the snapshot
    followed by null bytes up to the capacity (cut or extended by the
    resize), so it mirrors the map. *)
Theorem open_snapshot_file (d : pydict) (n : nat) :
  wf_pyval (PyDict d) ->
  List.length (snapshot d) <= MAX_LOCAL_STORAGE_SIZE cfg ->
  DataStore_init cfg (snapshot d ++ repeat NUL n)
  = Ok {| data := listify_dict d;
          mmap := {| Mmap.buf :=
                       snapshot d
                       ++ repeat NUL (MAX_LOCAL_STORAGE_SIZE cfg
                                      - List.length (snapshot d));
                     Mmap.pos := 0 |} |}
  /\ in_sync cfg
       {| data := listify_dict d;
          mmap := {| Mmap.buf :=
                       snapshot d
                       ++ repeat NUL (MAX_LOCAL_STORAGE_SIZE cfg
                                      - List.length (snapshot d));
                     Mmap.pos := 0 |} |}
  /\ (json_native (PyDict d) = true -> listify_dict d = d).
Proof.
  intros Hwf Hfit. split; [|split].
  - unfold DataStore_init, _get_mmaped_fd.
    rewrite mmap_nonempty
      by (unfold snapshot; rewrite dumps_dict; discriminate).
    rewrite resize_snapshot_padded by exact Hfit.
    rewrite (read_data_snapshot d _ 0 Hwf). reflexivity.
  - unfold in_sync. cbn [data mmap Mmap.buf].
    rewrite snapshot_listify, length_app, repeat_length.
    split; [lia|]. split; [lia|]. do 2 f_equal. lia.
  - apply listify_dict_native.
Qed.

(** X22. [flush] starts with a [seek] to the start of the region: where the
    cursor of the mmap stood before has no part in what [flush] does. *)
Theorem flush_ignores_cursor (d : pydict) (region : list byte) (p q : nat) :
  flush {| data := d; mmap := {| Mmap.buf := region; Mmap.pos := p |} |}
  = flush {| data := d; mmap := {| Mmap.buf := region; Mmap.pos := q |} |}.
Proof.
  rewrite !flush_eq. cbv zeta. cbn [data mmap Mmap.buf Mmap.seek].
  reflexivity.
Qed.

End Further.

(* ================================================================== *)
(** * The further properties at work on the example store *)
(* ================================================================== *)

Lemma example_store_ab_in_sync : in_sync example_config example_store_ab.
Proof.
  unfold in_sync. split; [reflexivity|]. split; [|reflexivity].
  vm_compute. lia.
Defined.

Lemma example_store_a_in_sync : in_sync example_config example_store_a.
Proof.
  unfold in_sync. split; [reflexivity|]. split; [|reflexivity].
  vm_compute. lia.
Defined.

Lemma delete_present_key_witness :
  fst (delete (PyStr "a") example_store_ab) = Ok tt
  /\ data (snd (delete (PyStr "a") example_store_ab))
     = [("b"%string, record (PyDict []) 2000 (PyInt 5))]
  /\ in_sync example_config (snd (delete (PyStr "a") example_store_ab)).
Proof.
  destruct (delete_present_key example_config example_store_ab "a"%string
              example_store_ab_in_sync eq_refl) as (H1 & H2 & H3 & _).
  split; [exact H1|]. split; [exact H2 | exact H3].
Defined.

Lemma delete_all_clears_witness :
  fst (delete_all example_store_ab) = Ok tt
  /\ data (snd (delete_all example_store_ab)) = []
  /\ get (PyStr "a") 3000 (snd (delete_all example_store_ab))
     = (Raise (KeyNotInDatastore (PyStr "a")), snd (delete_all example_store_ab)).
Proof.
  destruct (delete_all_clears example_config example_store_ab)
    as (H1 & H2 & _ & _ & H5).
  - reflexivity.
  - vm_compute. lia.
  - split; [exact H1|]. split; [exact H2 | exact (H5 "a"%string 3000%Z)].
Defined.

Lemma get_value_reads_only_witness :
  snd (get (PyStr "a") 5000 example_store_a) = example_store_a.
Proof.
  exact (proj1 (get_value_reads_only example_store_a
                  (snd (get (PyStr "a") 5000 example_store_a))
                  (PyStr "a") (PyDict [("x"%string, PyInt 1)]) 5000%Z
                  eq_refl)).
Defined.

Lemma create_validation_errors_witness :
  create example_config example_getsizeof (PyInt 7) (PyDict []) PyNone 1000
    example_store
  = (Raise (KeyNotStr (PyInt 7)), example_store)
  /\ create example_config example_getsizeof (PyStr key_of_33) (PyInt 3) PyNone
       1000 example_store
     = (Raise (SizeConfigNotMet 32 16384), example_store)
  /\ create example_config example_getsizeof (PyStr "a") (PyInt 3) PyNone 1000
       example_store
     = (Raise (ValueNotDict (PyInt 3)), example_store).
Proof.
  split; [|split].
  - apply (proj1 (create_validation_errors example_config example_getsizeof
                    example_store (PyInt 7) (PyDict []) PyNone 1000%Z eq_refl)).
    intros k H. discriminate H.
  - apply (proj1 (proj2 (create_validation_errors example_config
                           example_getsizeof example_store (PyStr key_of_33)
                           (PyInt 3) PyNone 1000%Z eq_refl)) key_of_33 eq_refl).
    reflexivity.
  - apply (proj1 (proj2 (proj2 (create_validation_errors example_config
                                  example_getsizeof example_store (PyStr "a")
                                  (PyInt 3) PyNone 1000%Z eq_refl)))
             "a"%string eq_refl).
    + vm_compute. discriminate.
    + intros d H. discriminate H.
Defined.

(** What [int] takes and what it does not: blanks around the digits and
    single underscores between them are taken; a separator (code 28) before
    the digit, a blank inside the number and a tuple are not. *)
Example py_int_examples :
  py_int (PyStr " 1_0 ") = Some 10%Z
  /\ py_int (PyStr (String (ascii_of_nat 9) "-7")) = Some (-7)%Z
  /\ py_int (PyStr (String (ascii_of_nat 28) "7")) = None
  /\ py_int (PyStr "1 0") = None
  /\ py_int (PyTuple [PyInt 1]) = None.
Proof. repeat split. Qed.

(** With a separator before the digit, the ttl is refused and nothing is
    stored. *)
Example create_ttl_separator :
  create example_config example_getsizeof (PyStr "c") (PyDict [])
    (PyStr (String (ascii_of_nat 28) "7")) 1000 example_store
  = (Raise (TtlNotInteger (PyStr (String (ascii_of_nat 28) "7"))),
     example_store).
Proof. reflexivity. Qed.

(** The text of an integer is a ttl. *)
Lemma create_ttl_coercion_witness :
  dict_get "c"
    (data (snd (create example_config example_getsizeof (PyStr "c") (PyDict [])
                  (PyStr " 1_0 ") 1000 example_store)))
  = Some (record (PyDict []) 1000 (PyInt 10)).
Proof.
  apply (create_ttl_coercion example_config example_getsizeof example_store
           "c"%string [] (PyStr " 1_0 ") 1000%Z).
  - reflexivity.
  - vm_compute. discriminate.
  - vm_compute. discriminate.
  - discriminate.
Defined.

Lemma operations_keep_records_witness :
  all_records
    (data (snd (create example_config example_getsizeof (PyStr "c")
                  (PyDict []) (PyBool true) 3000 example_store_ab)))
  = true.
Proof.
  apply (operations_keep_records example_config example_getsizeof
           example_store_ab eq_refl).
Defined.

Lemma get_outcomes_on_records_witness :
  fst (get (PyStr "b") 2100 example_store_b)
  = Raise (KeyNotInDatastore (PyStr "b"))
  \/ (exists v, fst (get (PyStr "b") 2100 example_store_b) = Ok v)
  \/ fst (get (PyStr "b") 2100 example_store_b) = Raise (TtlExpired (PyStr "b"))
  \/ fst (get (PyStr "b") 2100 example_store_b) = Raise MmapDataOutOfRange.
Proof.
  apply (get_outcomes_on_records example_store_b "b"%string 2100%Z).
  reflexivity.
Defined.

Lemma create_writes_through_witness :
  fst (create example_config example_getsizeof (PyStr "a")
         (PyDict [("x"%string, PyInt 1)]) PyNone 1000 example_store) = Ok tt
  /\ in_sync example_config example_store_a.
Proof.
  destruct (create_writes_through example_config example_getsizeof example_store
              "a"%string [("x"%string, PyInt 1)] PyNone PyNone 1000%Z)
    as (H1 & _ & H3 & _).
  - reflexivity.
  - reflexivity.
  - vm_compute. discriminate.
  - vm_compute. discriminate.
  - reflexivity.
  - vm_compute. lia.
  - split; [exact H1 | exact H3].
Defined.

Lemma create_persists_witness :
  exists reopened,
    DataStore_init example_config (Mmap.read_all (mmap example_store_b))
    = Ok reopened
    /\ get (PyStr "b") 1500 reopened
       = (Ok (PyDict [("y"%string, PyInt 1)]), reopened).
Proof.
  destruct (create_persists example_config example_getsizeof example_store
              "b"%string [("y"%string, PyInt 1)] (PyInt 1) (PyInt 1)
              1000%Z 1500%Z) as (reopened & Hopen & _ & _ & Hget).
  - split; [|reflexivity]. split; [constructor | exact I].
  - split; [|split; exact I]. constructor; [intros [] | constructor].
  - reflexivity.
  - vm_compute. discriminate.
  - vm_compute. discriminate.
  - reflexivity.
  - reflexivity.
  - intros t Ht. injection Ht as <-. vm_compute. discriminate.
  - exists reopened. split; [exact Hopen | exact (Hget eq_refl)].
Defined.

Lemma create_overflow_recovery_witness :
  fst (create example_config example_getsizeof (PyStr "a") example_big_value
         PyNone 1000 example_store)
  = Raise MmapDataOutOfRange
  /\ snd (delete (PyStr "a")
            (snd (create example_config example_getsizeof (PyStr "a")
                    example_big_value PyNone 1000 example_store)))
     = {| data := [];
          mmap := {| Mmap.buf := Mmap.buf (mmap example_store); Mmap.pos := 2 |} |}.
Proof.
  destruct (create_overflow_recovery example_config example_getsizeof
              example_store "a"%string
              [("x"%string,
                PyStr "0123456789abcdef0123456789abcdef0123456789abcdef0123456789abcdef")]
              PyNone PyNone 1000%Z)
    as (H1 & _).
  - exact example_store_in_sync.
  - reflexivity.
  - vm_compute. discriminate.
  - vm_compute. discriminate.
  - reflexivity.
  - vm_compute. lia.
  - split; [exact H1 | reflexivity].
Defined.

Lemma get_expired_always_evicts_witness :
  data (snd (get (PyStr "b") 2100 example_store_b)) = []
  /\ fst (get (PyStr "b") 2100 example_store_b) = Raise (TtlExpired (PyStr "b")).
Proof.
  destruct (get_expired_always_evicts example_store_b "b"%string
              (PyDict [("y"%string, PyInt 1)]) 1000%Z 1%Z 2100%Z)
    as (H1 & H2 & _).
  - reflexivity.
  - reflexivity.
  - split; [exact H1 | exact H2].
Defined.

(** The value under "a" is read back after a [delete] of "b". *)
Lemma other_keys_undisturbed_witness :
  fst (get (PyStr "a") 3000 (snd (delete (PyStr "b") example_store_ab)))
  = Ok (PyDict [("x"%string, PyInt 1)]).
Proof.
  destruct (other_keys_undisturbed example_config example_getsizeof
              example_store_ab "a"%string (PyDict [("x"%string, PyInt 1)])
              3000%Z (PyStr "b")) as (_ & H2 & _).
  - reflexivity.
  - discriminate.
  - exact H2.
Defined.

Lemma is_expired_monotone_witness :
  is_expired {| value := PyDict []; ttl := PyInt 1; created_at := PyInt 1000 |}
    9000
  = Ok true.
Proof.
  apply (is_expired_monotone
           {| value := PyDict []; ttl := PyInt 1; created_at := PyInt 1000 |}
           2100%Z 9000%Z).
  - reflexivity.
  - vm_compute. discriminate.
Defined.

Lemma create_negative_ttl_witness :
  dict_get "n"
    (data (snd (create example_config example_getsizeof (PyStr "n") (PyDict [])
                  (PyInt (-1)) 1000 example_store)))
  = Some (record (PyDict []) 1000 (PyInt (-1)))
  /\ dict_get "n"
       (data (snd (get (PyStr "n") 1000
                     (snd (create example_config example_getsizeof (PyStr "n")
                             (PyDict []) (PyInt (-1)) 1000 example_store)))))
     = None.
Proof.
  destruct (create_negative_ttl example_config example_getsizeof example_store
              "n"%string [] (PyInt (-1)) (-1)%Z 1000%Z 1000%Z)
    as (H1 & _ & H3).
  - reflexivity.
  - vm_compute. discriminate.
  - vm_compute. discriminate.
  - reflexivity.
  - reflexivity.
  - vm_compute. discriminate.
  - split; [exact H1 | exact H3].
Defined.

Lemma opened_store_keeps_shape_witness :
  well_shaped example_config
    {| data := data example_store_a;
       mmap := {| Mmap.buf := Mmap.buf (mmap example_store_a); Mmap.pos := 0 |} |}.
Proof.
  assert (Hopen : DataStore_init example_config (Mmap.buf (mmap example_store_a))
                  = Ok {| data := data example_store_a;
                          mmap := {| Mmap.buf := Mmap.buf (mmap example_store_a);
                                     Mmap.pos := 0 |} |})
    by (vm_compute; reflexivity).
  exact (proj1 (opened_store_keeps_shape example_config example_getsizeof
                  (Mmap.buf (mmap example_store_a)) _ Hopen)).
Defined.

Lemma get_record_without_ttl_witness :
  get (PyStr "a") 99999999 example_store_a
  = (Ok (PyDict [("x"%string, PyInt 1)]), example_store_a).
Proof.
  apply (get_record_without_ttl example_store_a "a"%string
           (PyDict [("x"%string, PyInt 1)]) (PyInt 1000) []).
  reflexivity.
Defined.

Lemma delete_twice_witness :
  delete (PyStr "a") (snd (delete (PyStr "a") example_store_a))
  = (Ok tt, snd (delete (PyStr "a") example_store_a)).
Proof.
  apply (delete_twice example_store_a (PyStr "a") true). reflexivity.
Defined.

(** The file of [example_store_a] cut to its text and three null bytes. *)
Lemma open_snapshot_file_witness :
  DataStore_init example_config
    (snapshot (data example_store_a) ++ repeat NUL 3)
  = Ok {| data := data example_store_a;
          mmap := {| Mmap.buf :=
                       snapshot (data example_store_a)
                       ++ repeat NUL (MAX_LOCAL_STORAGE_SIZE example_config
                                      - List.length
                                          (snapshot (data example_store_a)));
                     Mmap.pos := 0 |} |}.
Proof.
  destruct (open_snapshot_file example_config (data example_store_a) 3)
    as (H & _ & _).
  - destruct example_store_a_shaped as [Hwf _]. exact Hwf.
  - vm_compute. lia.
  - exact H.
Defined.
